(** * The VoltDB catalog code generator (src/catgen/catalog.py)

    A shallow embedding of the generator: the two type-rendering functions
    [javatypify] and [cpptypify], the managed-backend emitter [genjava], the
    manual-backend emitter [gencpp] and the driver [main], followed by the
    properties of the emitted text that the specification states.

    Python strings are [string]; every [write] call of the source appends one
    chunk (its arguments joined by a blank, plus a newline) to the file being
    written; an exception stops the run and keeps what was written so far. *)

From Stdlib Require Import Ascii String.
From stdpp Require Import gmap strings list.

Local Open Scope stdpp_scope.

(** ** Python string primitives *)

Module Py.

(** The newline and the double quote, which a literal cannot hold. *)
Definition nl : string := String "010"%char EmptyString.
Definition dq : string := String "034"%char EmptyString.

(** [x[-1]]: the last character; [None] stands for Python's IndexError on
    the empty string. *)
Fixpoint last_char (x : string) : option ascii :=
  match x with
  | EmptyString => None
  | String c r =>
      match r with
      | EmptyString => Some c
      | String _ _ => last_char r
      end
  end.

(** [x[:-1]]: everything but the last character; the empty string stays
    empty (slicing never raises). *)
Fixpoint drop_last (x : string) : string :=
  match x with
  | EmptyString => EmptyString
  | String c r =>
      match r with
      | EmptyString => EmptyString
      | String _ _ => String c (drop_last r)
      end
  end.

(** [x.rstrip(m)] for a one-character [m]: every trailing [m] is removed. *)
Fixpoint rstrip (m : ascii) (x : string) : string :=
  match x with
  | EmptyString => EmptyString
  | String c r =>
      match rstrip m r with
      | EmptyString => if decide (c = m) then EmptyString else String c EmptyString
      | String d r' => String c (String d r')
      end
  end.

(** ASCII case mapping, as [str.upper] and [str.lower] do on byte strings. *)
Definition upper_char (c : ascii) : ascii :=
  let n := nat_of_ascii c in
  if (97 <=? n)%nat && (n <=? 122)%nat then ascii_of_nat (n - 32) else c.

Definition lower_char (c : ascii) : ascii :=
  let n := nat_of_ascii c in
  if (65 <=? n)%nat && (n <=? 90)%nat then ascii_of_nat (n + 32) else c.

Fixpoint map_chars (f : ascii -> ascii) (x : string) : string :=
  match x with
  | EmptyString => EmptyString
  | String c r => String (f c) (map_chars f r)
  end.

Definition upper : string -> string := map_chars upper_char.
Definition lower : string -> string := map_chars lower_char.

(** [x.capitalize()]: first character upper-cased, the rest lower-cased. *)
Definition capitalize (x : string) : string :=
  match x with
  | EmptyString => EmptyString
  | String c r => String (upper_char c) (lower r)
  end.

(** [x.replace(a, b)] for one-character [a] and [b]. *)
Definition replace_char (a b : ascii) : string -> string :=
  map_chars (fun c => if decide (c = a) then b else c).

(** [sep.join(l)]. *)
Fixpoint join (sep : string) (l : list string) : string :=
  match l with
  | [] => EmptyString
  | [x] => x
  | x :: r => x +:+ sep +:+ join sep r
  end.

End Py.

Import Py.

(** ** Exceptions and results *)

Inductive exn : Type :=
| Exception (msg : string)   (* raise Exception( 'bad type: ' + x ) *)
| IndexError.                (* x[-1] on the empty string *)

Inductive result (A : Type) : Type :=
| Ok (a : A)
| Raise (e : exn).
Arguments Ok {A} a.
Arguments Raise {A} e.

(** [x[-1] == c], which raises on the empty string. *)
Definition last_is (x : string) (c : ascii) : result bool :=
  match last_char x with
  | Some d => Ok (bool_decide (d = c))
  | None => Raise IndexError
  end.

(** ** Type rendering *)

Definition javatypify (x : string) : result string :=
  if decide (x = "string") then Ok "String"
  else if decide (x = "int") then Ok "int"
  else if decide (x = "bool") then Ok "boolean"
  else match last_char x with
       | None => Raise IndexError
       | Some c =>
           if decide (c = "*"%char) then Ok ("CatalogMap<" +:+ rstrip "*" x +:+ ">")
           else if decide (c = "?"%char) then Ok (rstrip "?" x)
           else Raise (Exception ("bad type: " +:+ x))
       end.

Definition javaobjectify (x : string) : result string :=
  if decide (x = "string") then Ok "String"
  else if decide (x = "int") then Ok "Integer"
  else if decide (x = "bool") then Ok "Boolean"
  else match last_char x with
       | None => Raise IndexError
       | Some c =>
           if decide (c = "*"%char) then Ok ("CatalogMap<" +:+ rstrip "*" x +:+ ">")
           else if decide (c = "?"%char) then Ok (rstrip "?" x)
           else Raise (Exception ("bad type: " +:+ x))
       end.

Definition cpptypify (x : string) : result string :=
  if decide (x = "string") then Ok "std::string"
  else if decide (x = "int") then Ok "int32_t"
  else if decide (x = "bool") then Ok "bool"
  else match last_char x with
       | None => Raise IndexError
       | Some c =>
           if decide (c = "*"%char) then Ok ("CatalogMap<" +:+ rstrip "*" x +:+ ">")
           else if decide (c = "?"%char) then Ok "CatalogType*"
           else Raise (Exception ("bad type: " +:+ x))
       end.

(** ** The descriptor model

    Modelled from the spec: the classes [Class] and [Field] of
    catalog_utils are not part of the sources at hand; a class has a name,
    an optional doc comment and an ordered list of fields, a field has a
    name, a raw type token and an optional doc comment. [has_comment] holds
    when the comment is present. *)

Record Field : Type := mkField {
  field_name : string;
  field_type : string;
  field_comment : option string
}.

Record Class : Type := mkClass {
  cls_name : string;
  cls_fields : list Field;
  cls_comment : option string
}.

(** ** Emission: a writer with exceptions

    An emitter returns the chunks it has written, in order, and either a
    value or the exception that stopped it. What was written before the
    exception stays written. *)

Definition Emit (A : Type) : Type := (list string * result A)%type.

Definition chunks {A} (m : Emit A) : list string := m.1.
Definition outcome {A} (m : Emit A) : result A := m.2.

Global Instance Emit_ret : MRet Emit := λ A a, ([], Ok a).

Global Instance Emit_bind : MBind Emit := λ A B k m,
  match m.2 with
  | Ok a => let r := k a in (m.1 ++ r.1, r.2)
  | Raise e => (m.1, Raise e)
  end.

(** [writer(f)]: a call of [write] appends its arguments, joined by a blank
    and followed by a newline. *)
Definition write (args : list string) : Emit unit :=
  ([join " " args +:+ nl], Ok ()).

(** A pure computation that may raise. *)
Definition lift {A} (r : result A) : Emit A := ([], r).

(** [for x in l: body(x)]. *)
Fixpoint for_each {A} (l : list A) (body : A → Emit unit) : Emit unit :=
  match l with
  | [] => mret ()
  | x :: r => body x ;; for_each r body
  end.

(** [if b: m]. *)
Definition when (b : bool) (m : Emit unit) : Emit unit :=
  if b then m else mret ().

(** [if x.has_comment(): m(x.comment)]. *)
Definition when_comment (c : option string) (m : string → Emit unit) : Emit unit :=
  match c with
  | Some s => m s
  | None => mret ()
  end.

(** A string between double quotes. *)
Definition q (s : string) : string := dq +:+ s +:+ dq.

(** ** Java code generation *)

Section Generator.

(** The two banners of catalog_utils, whose text is not in the sources at
    hand. *)
Variable gpl_header : string.
Variable auto_gen_warning : string.

Definition java_header (package : string) (cls : Class) : Emit unit :=
  write [gpl_header] ;;
  write [auto_gen_warning] ;;
  write ["package"; package +:+ ";" +:+ nl] ;;
  when_comment (cls_comment cls) (λ c,
    write ["/**" +:+ nl +:+ " *"; c] ;;
    write [" */"]) ;;
  write ["public class " +:+ cls_name cls +:+ " extends CatalogType {" +:+ nl].

(* fields *)
Definition java_fields (cls : Class) : Emit unit :=
  for_each (cls_fields cls) (λ field,
    ftype ← lift (javatypify (field_type field));
    let fname := field_name field in
    if decide (ftype = "String") then
      write ["    String m_" +:+ fname +:+ " = new String();"]
    else
      isref ← lift (last_is (field_type field) "?");
      if isref : bool then
        write ["    Catalog.CatalogReference<" +:+ ftype +:+ "> m_" +:+ fname
               +:+ " = new CatalogReference<>();"]
      else
        write ["    " +:+ ftype +:+ " m_" +:+ fname +:+ ";"]) ;;
  write [""].

(* setBaseValues *)
Definition java_setBaseValues (cls : Class) : Emit unit :=
  write ["    void setBaseValues(CatalogMap<? extends CatalogType> parentMap, String name) {"] ;;
  write ["        super.setBaseValues(parentMap, name);"] ;;
  for_each (cls_fields cls) (λ field,
    ftype ← lift (javatypify (field_type field));
    let fname := field_name field in
    let realtype := drop_last (field_type field) in
    iscoll ← lift (last_is (field_type field) "*");
    when iscoll
      (write ["        m_" +:+ fname +:+ " = new " +:+ ftype +:+ "(getCatalog(), this, "
              +:+ q fname +:+ ", " +:+ realtype +:+ ".class, m_parentMap.m_depth + 1);"])) ;;
  write ["    }" +:+ nl].

(* getFields *)
Definition java_getFields (cls : Class) : Emit unit :=
  write ["    public String[] getFields() {"] ;;
  write ["        return new String[] {"] ;;
  for_each (cls_fields cls) (λ field,
    iscoll ← lift (last_is (field_type field) "*");
    when (negb iscoll)
      (let fname := field_name field in
       write ["            " +:+ q fname +:+ ","])) ;;
  write ["        };"] ;;
  write ["    };" +:+ nl].

(* getChildCollections *)
Definition java_getChildCollections (cls : Class) : Emit unit :=
  write ["    String[] getChildCollections() {"] ;;
  write ["        return new String[] {"] ;;
  for_each (cls_fields cls) (λ field,
    iscoll ← lift (last_is (field_type field) "*");
    when iscoll
      (let fname := field_name field in
       write ["            " +:+ q fname +:+ ","])) ;;
  write ["        };"] ;;
  write ["    };" +:+ nl].

(* getField *)
Definition java_getField (cls : Class) : Emit unit :=
  write ["    public Object getField(String field) {"] ;;
  write ["        switch (field) {"] ;;
  for_each (cls_fields cls) (λ field,
    let fname := field_name field in
    let methname := capitalize fname in
    write ["        case " +:+ q fname +:+ ":"] ;;
    write ["            return get" +:+ methname +:+ "();"]) ;;
  write ["        default:"] ;;
  write ["            throw new CatalogException(" +:+ q "Unknown field" +:+ ");"] ;;
  write ["        }"] ;;
  write ["    }" +:+ nl].

(* getter methods *)
Definition java_getters (cls : Class) : Emit unit :=
  for_each (cls_fields cls) (λ field,
    ftype ← lift (javatypify (field_type field));
    let fname := field_name field in
    let methname := capitalize fname in
    when_comment (field_comment field) (λ c,
      write ["    /** GETTER:"; c; "*/"]) ;;
    write ["    public " +:+ ftype +:+ " get" +:+ methname +:+ "() {"] ;;
    isref ← lift (last_is (field_type field) "?");
    (if isref : bool then
       write ["        return m_" +:+ fname +:+ ".get();"]
     else
       write ["        return m_" +:+ fname +:+ ";"]) ;;
    write ["    }" +:+ nl]).

(* setter methods *)
Definition java_setters (cls : Class) : Emit unit :=
  for_each (cls_fields cls) (λ field,
    ftype ← lift (javatypify (field_type field));
    let fname := field_name field in
    let methname := capitalize fname in
    iscoll ← lift (last_is (field_type field) "*");
    if iscoll : bool then mret ()   (* continue *)
    else
      when_comment (field_comment field) (λ c,
        write ["    /** SETTER:"; c; "*/"]) ;;
      write ["    public void set" +:+ methname +:+ "(" +:+ ftype +:+ " value) {"] ;;
      isref ← lift (last_is (field_type field) "?");
      (if isref : bool then
         write ["        m_" +:+ fname +:+ ".set(value);"]
       else
         write ["        m_" +:+ fname +:+ " = value;"]) ;;
      write ["    }" +:+ nl]).

(** The backslash of the Java escape in the emitted quote test. *)
Definition bs : string := String "092"%char EmptyString.

(* set *)
Definition java_set (cls : Class) : Emit unit :=
  write ["    @Override"] ;;
  write ["    void set(String field, String value) {"] ;;
  write ["        if ((field == null) || (value == null)) {"] ;;
  write ["            throw new CatalogException(" +:+ q "Null value where it shouldn't be." +:+ ");"] ;;
  write ["        }" +:+ nl] ;;
  write ["        switch (field) {"] ;;
  for_each (cls_fields cls) (λ field,
    iscoll ← lift (last_is (field_type field) "*");
    if iscoll : bool then mret ()   (* skip child collections for set *)
    else
      let fname := field_name field in
      ftype ← lift (javatypify (field_type field));
      write ["        case " +:+ q fname +:+ ":"] ;;
      isref ← lift (last_is (field_type field) "?");
      (if isref : bool then
         write ["            value = value.trim();"] ;;
         write ["            if (value.startsWith(" +:+ q "null" +:+ ")) value = null;"] ;;
         write ["            assert((value == null) || value.startsWith(" +:+ q "/" +:+ "));"] ;;
         write ["            m_" +:+ fname +:+ ".setUnresolved(value);"]
       else if decide (ftype = "int") then
         write ["            assert(value != null);"] ;;
         write ["            m_" +:+ fname +:+ " = Integer.parseInt(value);"]
       else if decide (ftype = "boolean") then
         write ["            assert(value != null);"] ;;
         write ["            m_" +:+ fname +:+ " = Boolean.parseBoolean(value);"]
       else if decide (ftype = "String") then
         write ["            value = value.trim();"] ;;
         write ["            if (value.startsWith(" +:+ q "null" +:+ ")) value = null;"] ;;
         write ["            if (value != null) {"] ;;
         write ["                assert(value.startsWith(" +:+ q (bs +:+ dq) +:+ ") && value.endsWith("
                +:+ q (bs +:+ dq) +:+ "));"] ;;
         write ["                value = value.substring(1, value.length() - 1);"] ;;
         write ["            }"] ;;
         write ["            m_" +:+ fname +:+ " = value;"]
       else mret ()) ;;
      write ["            break;"]) ;;
  write ["        default:"] ;;
  write ["            throw new CatalogException(" +:+ q "Unknown field" +:+ ");"] ;;
  write ["        }"] ;;
  write ["    }" +:+ nl].

(* copyFields *)
Definition java_copyFields (cls : Class) : Emit unit :=
  let clsname := cls_name cls in
  write ["    @Override"] ;;
  write ["    void copyFields(CatalogType obj) {"] ;;
  when (bool_decide (0 < length (cls_fields cls)))
    (write ["        // this is safe from the caller"] ;;
     write ["        " +:+ clsname +:+ " other = (" +:+ clsname +:+ ") obj;" +:+ nl] ;;
     for_each (cls_fields cls) (λ field,
       ftype ← lift (javatypify (field_type field));
       let fname := field_name field in
       if bool_decide (ftype ∈ (["int"; "boolean"; "String"] : list string)) then
         write ["        other.m_" +:+ fname +:+ " = m_" +:+ fname +:+ ";"]
       else
         isref ← lift (last_is (field_type field) "?");
         if isref : bool then
           write ["        other.m_" +:+ fname +:+ ".setUnresolved(m_" +:+ fname +:+ ".getPath());"]
         else
           iscoll ← lift (last_is (field_type field) "*");
           when iscoll
             (write ["        other.m_" +:+ fname +:+ ".copyFrom(m_" +:+ fname +:+ ");"]))) ;;
  write ["    }" +:+ nl].

(* equals *)
Definition java_equals (cls : Class) : Emit unit :=
  let clsname := cls_name cls in
  write ["    public boolean equals(Object obj) {"] ;;
  write ["        // this isn't really the convention for null handling"] ;;
  write ["        if ((obj == null) || (obj.getClass().equals(getClass()) == false))"] ;;
  write ["            return false;" +:+ nl] ;;
  write ["        // Do the identity check"] ;;
  write ["        if (obj == this)"] ;;
  write ["            return true;" +:+ nl] ;;
  write ["        // this is safe because of the class check"] ;;
  write ["        // it is also known that the childCollections var will be the same"] ;;
  write ["        //  from the class check"] ;;
  write ["        " +:+ clsname +:+ " other = (" +:+ clsname +:+ ") obj;" +:+ nl] ;;
  write ["        // are the fields / children the same? (deep compare)"] ;;
  for_each (cls_fields cls) (λ field,
    ftype ← lift (javatypify (field_type field));
    let fname := field_name field in
    if bool_decide (ftype ∈ (["int"; "boolean"] : list string)) then
      write ["        if (m_" +:+ fname +:+ " != other.m_" +:+ fname +:+ ") return false;"]
    else
      write ["        if ((m_" +:+ fname +:+ " == null) != (other.m_" +:+ fname
             +:+ " == null)) return false;"] ;;
      write ["        if ((m_" +:+ fname +:+ " != null) && !m_" +:+ fname +:+ ".equals(other.m_"
             +:+ fname +:+ ")) return false;"]) ;;
  write [""] ;;
  write ["        return true;"] ;;
  write ["    }" +:+ nl].

(** The body of the loop over the classes: everything written to the
    file of one class. *)
Definition genjava_class (package : string) (cls : Class) : Emit unit :=
  java_header package cls ;;
  java_fields cls ;;
  java_setBaseValues cls ;;
  java_getFields cls ;;
  java_getChildCollections cls ;;
  java_getField cls ;;
  java_getters cls ;;
  java_setters cls ;;
  java_set cls ;;
  java_copyFields cls ;;
  java_equals cls ;;
  write ["}"].   (* wrap up *)

(** ** C++ code generation *)

(** The order in which Python lists the keys of the dictionary [uniques]
    is that of its hash table; it is left open. *)
Variable dict_keys : list string → list string.

(** [l.remove(x)]: the first occurrence goes. *)
Fixpoint remove_first (x : string) (l : list string) : list string :=
  match l with
  | [] => []
  | y :: r => if decide (y = x) then r else y :: remove_first x r
  end.

(** The loop that fills [referencedClasses], from the names gathered so
    far. *)
Fixpoint collect_referenced (fields : list Field) (acc : list string)
  : result (list string) :=
  match fields with
  | [] => Ok acc
  | field :: rest =>
      let classType := drop_last (field_type field) in
      match last_char (field_type field) with
      | None => Raise IndexError
      | Some c =>
          if bool_decide (c = "*"%char) || bool_decide (c = "?"%char) then
            if bool_decide (classType ∈ acc) then collect_referenced rest acc
            else collect_referenced rest (acc ++ [classType])
          else collect_referenced rest acc
      end
  end.

Definition referencedClasses (cls : Class) : result (list string) :=
  match collect_referenced (cls_fields cls) [] with
  | Ok l =>
      if bool_decide (cls_name cls ∈ l) then Ok (remove_first (cls_name cls) l)
      else Ok l
  | Raise e => Raise e
  end.

Definition pp_unique_str (cls : Class) : string :=
  "CATALOG_" +:+ upper (cls_name cls) +:+ "_H_".

Definition cpp_forward_decls (referenced : list string) : Emit unit :=
  for_each referenced (λ classType, write ["class " +:+ classType +:+ ";"]).

(* Field Member variables. *)
Definition cpp_members (cls : Class) : Emit unit :=
  for_each (cls_fields cls) (λ field,
    ftype ← lift (cpptypify (field_type field));
    let privname := "m_" +:+ field_name field in
    write ["    " +:+ ftype +:+ " " +:+ privname +:+ ";"]).

(* getter methods, as declared in the header *)
Definition cpp_getter_decls (cls : Class) : Emit unit :=
  for_each (cls_fields cls) (λ field,
    ftype ← lift (cpptypify (field_type field));
    let pubname := field_name field in
    when_comment (field_comment field) (λ c,
      write ["    /** GETTER:"; c; "*/"]) ;;
    if decide (field_type field = "string") then
      write ["    const std::string & " +:+ pubname +:+ "() const;"]
    else
      isref ← lift (last_is (field_type field) "?");
      if isref : bool then
        write ["    const " +:+ drop_last (field_type field) +:+ " * " +:+ pubname +:+ "() const;"]
      else
        iscoll ← lift (last_is (field_type field) "*");
        if iscoll : bool then
          write ["    const " +:+ ftype +:+ " & " +:+ pubname +:+ "() const;"]
        else
          write ["    " +:+ ftype +:+ " " +:+ pubname +:+ "() const;"]).

(* WRITE THE HEADER FILE *)
Definition gencpp_header (cls : Class) (referenced : list string) : Emit unit :=
  let clsname := cls_name cls in
  write [gpl_header] ;;
  write [auto_gen_warning] ;;
  write ["#ifndef"; pp_unique_str cls] ;;
  write ["#define"; pp_unique_str cls] ;;
  write [""] ;;
  write ["#include <string>"] ;;
  write ["#include " +:+ q "catalogtype.h"] ;;
  write ["#include " +:+ q "catalogmap.h" +:+ nl] ;;
  write ["namespace catalog {" +:+ nl] ;;
  cpp_forward_decls referenced ;;
  when_comment (cls_comment cls) (λ c,
    write ["/**" +:+ nl +:+ " *"; c] ;;
    write [" */"]) ;;
  write ["class " +:+ clsname +:+ " : public CatalogType {"] ;;
  write ["    friend class Catalog;"] ;;
  write ["    friend class CatalogMap<" +:+ clsname +:+ ">;"] ;;
  write [nl +:+ "protected:"] ;;
  write ["    " +:+ clsname
         +:+ "(Catalog * catalog, CatalogType * parent, const std::string &path, const std::string &name);"] ;;
  cpp_members cls ;;
  write [nl +:+ "    virtual void update();" +:+ nl] ;;
  write ["    virtual CatalogType * addChild(const std::string &collectionName, const std::string &name);"] ;;
  write ["    virtual CatalogType * getChild(const std::string &collectionName, const std::string &childName) const;"] ;;
  write ["    virtual bool removeChild(const std::string &collectionName, const std::string &childName);"] ;;
  write [nl +:+ "public:"] ;;
  write ["    ~" +:+ clsname +:+ "();" +:+ nl] ;;
  cpp_getter_decls cls ;;
  write ["};" +:+ nl] ;;
  write ["} // namespace catalog" +:+ nl] ;;
  write ["#endif // "; pp_unique_str cls].

(** [[e(field) for field in fields if field.type[-1] == c]]. *)
Fixpoint comprehension (keep : ascii → bool) (e : Field → string) (fields : list Field)
  : result (list string) :=
  match fields with
  | [] => Ok []
  | field :: rest =>
      match last_char (field_type field) with
      | None => Raise IndexError
      | Some c =>
          match comprehension keep e rest with
          | Ok l => Ok (if keep c then e field :: l else l)
          | Raise x => Raise x
          end
      end
  end.

Definition is_star (c : ascii) : bool := bool_decide (c = "*"%char).
Definition is_marker (c : ascii) : bool :=
  bool_decide (c ∈ (["*"%char; "?"%char] : list ascii)).

(* the includes of the definition file *)
Definition cpp_includes (cls : Class) : Emit unit :=
  let filename := lower (cls_name cls) in
  write ["#include <cassert>"] ;;
  write ["#include " +:+ q (filename +:+ ".h")] ;;
  write ["#include " +:+ q "catalog.h"] ;;
  otherhdrs ← lift (comprehension is_marker
    (λ field, "#include " +:+ q (lower (drop_last (field_type field)) +:+ ".h"))
    (cls_fields cls));
  for_each (dict_keys otherhdrs) (λ hdr, write [hdr]) ;;
  write [nl +:+ "using namespace catalog;"] ;;
  write ["using namespace std;" +:+ nl].

(* write the constructor *)
Definition cpp_constructor (cls : Class) : Emit unit :=
  let clsname := cls_name cls in
  mapcons ← lift (comprehension is_star
    (λ field, "m_" +:+ field_name field +:+ "(catalog)") (cls_fields cls));
  write [clsname +:+ "::" +:+ clsname
         +:+ "(Catalog *catalog, CatalogType *parent, const string &path, const string &name)"] ;;
  let comma := if bool_decide (0 < length mapcons) then "," else "" in
  write [": CatalogType(catalog, parent, path, name)" +:+ comma] ;;
  mapcons ← lift (comprehension is_star
    (λ field, "m_" +:+ field_name field +:+ "(catalog, this, path + " +:+ q "/" +:+ " + "
              +:+ q (field_name field) +:+ ")") (cls_fields cls));
  when (bool_decide (0 < length mapcons)) (write ["  " +:+ join ", " mapcons]) ;;
  write ["{"] ;;
  (* init the fields and childCollections *)
  write ["    CatalogValue value;"] ;;
  for_each (cls_fields cls) (λ field,
    ftype ← lift (cpptypify (field_type field));
    let privname := "m_" +:+ field_name field in
    let pubname := field_name field in
    iscoll ← lift (last_is (field_type field) "*");
    if iscoll : bool then
      write ["    m_childCollections[" +:+ q pubname +:+ "] = &" +:+ privname +:+ ";"]
    else
      write ["    m_fields[" +:+ q pubname +:+ "] = value;"]) ;;
  write ["}" +:+ nl].

(* write the destructor *)
Definition cpp_destructor (cls : Class) : Emit unit :=
  let clsname := cls_name cls in
  write [clsname +:+ "::~" +:+ clsname +:+ "() {"] ;;
  for_each (cls_fields cls) (λ field,
    iscoll ← lift (last_is (field_type field) "*");
    when iscoll
      (let ftype := rstrip "*" (field_type field) in
       let itr := lower ftype +:+ "_iter" in
       let privname := "m_" +:+ field_name field in
       let tab := "   " in
       write [tab +:+ " std::map<std::string, " +:+ ftype +:+ "*>::const_iterator " +:+ itr
              +:+ " = " +:+ privname +:+ ".begin();"] ;;
       write [tab +:+ " while (" +:+ itr +:+ " != " +:+ privname +:+ ".end()) {"] ;;
       write [tab +:+ " " +:+ tab +:+ " delete " +:+ itr +:+ "->second;"] ;;
       write [tab +:+ " " +:+ tab +:+ " " +:+ itr +:+ "++;"] ;;
       write [tab +:+ " }"] ;;
       write [tab +:+ " " +:+ privname +:+ ".clear();" +:+ nl])) ;;
  write ["}" +:+ nl].

(* write update() *)
Definition cpp_update (cls : Class) : Emit unit :=
  let clsname := cls_name cls in
  write ["void " +:+ clsname +:+ "::update() {"] ;;
  for_each (cls_fields cls) (λ field,
    ftype ← lift (cpptypify (field_type field));
    let privname := "m_" +:+ field_name field in
    let pubname := field_name field in
    isref ← lift (last_is (field_type field) "?");
    if isref : bool then
      let ext := "typeValue" in
      write ["    " +:+ privname +:+ " = m_fields[" +:+ q pubname +:+ "]." +:+ ext +:+ ";"]
    else
      iscoll ← lift (last_is (field_type field) "*");
      when (negb iscoll)
        (let ext := if decide (ftype = "std::string") then "strValue.c_str()" else "intValue" in
         write ["    " +:+ privname +:+ " = m_fields[" +:+ q pubname +:+ "]." +:+ ext +:+ ";"])) ;;
  write ["}" +:+ nl].

(* write add(...) *)
Definition cpp_addChild (cls : Class) : Emit unit :=
  let clsname := cls_name cls in
  write ["CatalogType * " +:+ clsname
         +:+ "::addChild(const std::string &collectionName, const std::string &childName) {"] ;;
  for_each (cls_fields cls) (λ field,
    iscoll ← lift (last_is (field_type field) "*");
    when iscoll
      (let privname := "m_" +:+ field_name field in
       let pubname := field_name field in
       write ["    if (collectionName.compare(" +:+ q pubname +:+ ") == 0) {"] ;;
       write ["        CatalogType *exists = " +:+ privname +:+ ".get(childName);"] ;;
       write ["        if (exists)" +:+ nl +:+ "            return NULL;"] ;;
       write ["        return " +:+ privname +:+ ".add(childName);" +:+ nl +:+ "    }"])) ;;
  write ["    return NULL;" +:+ nl +:+ "}" +:+ nl].

(* write getChild(...) *)
Definition cpp_getChild (cls : Class) : Emit unit :=
  let clsname := cls_name cls in
  write ["CatalogType * " +:+ clsname
         +:+ "::getChild(const std::string &collectionName, const std::string &childName) const {"] ;;
  for_each (cls_fields cls) (λ field,
    iscoll ← lift (last_is (field_type field) "*");
    when iscoll
      (let privname := "m_" +:+ field_name field in
       let pubname := field_name field in
       write ["    if (collectionName.compare(" +:+ q pubname +:+ ") == 0)"] ;;
       write ["        return " +:+ privname +:+ ".get(childName);"])) ;;
  write ["    return NULL;" +:+ nl +:+ "}" +:+ nl].

(* write removeChild(...) *)
Definition cpp_removeChild (cls : Class) : Emit unit :=
  let clsname := cls_name cls in
  write ["bool " +:+ clsname
         +:+ "::removeChild(const std::string &collectionName, const std::string &childName) {"] ;;
  write ["    assert (m_childCollections.find(collectionName) != m_childCollections.end());"] ;;
  for_each (cls_fields cls) (λ field,
    iscoll ← lift (last_is (field_type field) "*");
    when iscoll
      (let privname := "m_" +:+ field_name field in
       let pubname := field_name field in
       write ["    if (collectionName.compare(" +:+ q pubname +:+ ") == 0) {"] ;;
       write ["        return " +:+ privname +:+ ".remove(childName);"] ;;
       write ["    }"])) ;;
  write ["    return false;"] ;;
  write ["}" +:+ nl].

(* write field getters *)
Definition cpp_getters (cls : Class) : Emit unit :=
  let clsname := cls_name cls in
  for_each (cls_fields cls) (λ field,
    ftype ← lift (cpptypify (field_type field));
    let privname := "m_" +:+ field_name field in
    let pubname := field_name field in
    let outertype := drop_last (field_type field) in
    if decide (field_type field = "string") then
      write ["const string & " +:+ clsname +:+ "::" +:+ pubname +:+ "() const {" +:+ nl
             +:+ "    return " +:+ privname +:+ ";" +:+ nl +:+ "}" +:+ nl]
    else
      isref ← lift (last_is (field_type field) "?");
      if isref : bool then
        write ["const " +:+ outertype +:+ " * " +:+ clsname +:+ "::" +:+ pubname +:+ "() const {"] ;;
        write ["    return dynamic_cast<" +:+ outertype +:+ "*>(" +:+ privname +:+ ");" +:+ nl
               +:+ "}" +:+ nl]
      else
        iscoll ← lift (last_is (field_type field) "*");
        if iscoll : bool then
          write ["const " +:+ ftype +:+ " & " +:+ clsname +:+ "::" +:+ pubname +:+ "() const {" +:+ nl
                 +:+ "    return " +:+ privname +:+ ";" +:+ nl +:+ "}" +:+ nl]
        else
          write [ftype +:+ " " +:+ clsname +:+ "::" +:+ pubname +:+ "() const {" +:+ nl
                 +:+ "    return " +:+ privname +:+ ";" +:+ nl +:+ "}" +:+ nl]).

(* WRITE THE CPP FILE *)
Definition gencpp_source (cls : Class) : Emit unit :=
  write [gpl_header] ;;
  write [auto_gen_warning] ;;
  cpp_includes cls ;;
  cpp_constructor cls ;;
  cpp_destructor cls ;;
  cpp_update cls ;;
  cpp_addChild cls ;;
  cpp_getChild cls ;;
  cpp_removeChild cls ;;
  cpp_getters cls.

(** ** The run: shell commands and files

    The world of a run is the list of shell commands it has issued through
    [os.system] and the files it has written, by path. Opening a file for
    writing creates it empty; each chunk written is appended to it. *)

Record World : Type := mkWorld {
  cmds : list string;
  files : gmap string (list string)
}.

Definition Gen (A : Type) : Type := World → World * result A.

Global Instance Gen_ret : MRet Gen := λ A a w, (w, Ok a).

Global Instance Gen_bind : MBind Gen := λ A B k m w,
  let r := m w in
  match r.2 with
  | Ok a => k a r.1
  | Raise e => (r.1, Raise e)
  end.

Definition os_system (cmd : string) : Gen unit :=
  λ w, (mkWorld (cmds w ++ [cmd]) (files w), Ok ()).

(** [f = file(path, 'w')] followed by the writes of [body] to [f]: the
    file holds what [body] wrote, whether it ended or raised. Opening is
    taken to succeed (the test [if not f] of the source never holds for a
    file object). *)
Definition to_file (path : string) (body : Emit unit) : Gen unit :=
  λ w, (mkWorld (cmds w) (<[path := chunks body]> (files w)), outcome body).

Definition lift_gen {A} (r : result A) : Gen A := λ w, (w, r).

Fixpoint for_classes (l : list Class) (body : Class → Gen unit) : Gen unit :=
  match l with
  | [] => mret ()
  | cls :: r => body cls ;; for_classes r body
  end.

Definition genjava (classes : list Class) (prepath postpath package : string) : Gen unit :=
  (* SETUP *)
  let pkgdir := replace_char "." "/" package in
  os_system ("rm -rf " +:+ postpath +:+ "/*") ;;
  os_system ("mkdir -p " +:+ postpath +:+ "/") ;;
  os_system ("cp " +:+ prepath +:+ "/Catalog.java " +:+ postpath) ;;
  os_system ("cp " +:+ prepath +:+ "/CatalogType.java " +:+ postpath) ;;
  os_system ("cp " +:+ prepath +:+ "/CatalogMap.java " +:+ postpath) ;;
  os_system ("cp " +:+ prepath +:+ "/CatalogException.java " +:+ postpath) ;;
  os_system ("cp " +:+ prepath +:+ "/CatalogChangeGroup.java " +:+ postpath) ;;
  os_system ("cp " +:+ prepath +:+ "/CatalogDiffEngine.java " +:+ postpath) ;;
  os_system ("cp " +:+ prepath +:+ "/FilteredCatalogDiffEngine.java " +:+ postpath) ;;
  (* WRITE THE SOURCE FILES *)
  for_classes classes (λ cls,
    let clsname := cls_name cls in
    let javapath := postpath +:+ "/" +:+ clsname +:+ ".java" in
    to_file javapath (genjava_class package cls)).

Definition gencpp (classes : list Class) (prepath postpath : string) : Gen unit :=
  (* SETUP *)
  os_system ("rm -rf " +:+ postpath +:+ "/*") ;;
  os_system ("mkdir -p " +:+ postpath +:+ "/") ;;
  os_system ("cp " +:+ prepath +:+ "/catalog.h " +:+ postpath) ;;
  os_system ("cp " +:+ prepath +:+ "/catalogtype.h " +:+ postpath) ;;
  os_system ("cp " +:+ prepath +:+ "/catalogmap.h " +:+ postpath) ;;
  os_system ("cp " +:+ prepath +:+ "/catalog.cpp " +:+ postpath) ;;
  os_system ("cp " +:+ prepath +:+ "/catalogtype.cpp " +:+ postpath) ;;
  (* WRITE THE SOURCE FILES *)
  for_classes (reverse classes) (λ cls,
    let clsname := cls_name cls in
    referenced ← lift_gen (referencedClasses cls);
    to_file (postpath +:+ "/" +:+ lower clsname +:+ ".h") (gencpp_header cls referenced) ;;
    to_file (postpath +:+ "/" +:+ lower clsname +:+ ".cpp") (gencpp_source cls)).

Definition javapkg : string := "org.voltdb.catalog".
Definition cpp_postpath : string := "out/cppsrc".
Definition cpp_prepath : string := "in/cppsrc".
Definition java_prepath : string := "in/javasrc".
Definition java_postpath : string := "out/javasrc".

(** [main], from the classes that the external parser returns. *)
Definition main (classes : list Class) : Gen unit :=
  genjava classes java_prepath java_postpath javapkg ;;
  gencpp classes cpp_prepath cpp_postpath.

Definition empty_world : World := mkWorld [] ∅.

End Generator.

(** ** The field kinds of the specification *)

Inductive ScalarKind : Type := KString | KInt | KBool.

Inductive FieldKind : Type :=
| Scalar (k : ScalarKind)
| Reference (target : string)
| Collection (target : string).

Definition scalar_of (x : string) : option ScalarKind :=
  if decide (x = "string") then Some KString
  else if decide (x = "int") then Some KInt
  else if decide (x = "bool") then Some KBool
  else None.

(** The classifier as the specification words it (section 4.1): the three
    scalar tokens first, then a trailing [*], then a trailing [?], the target
    being the token without its last character; anything else fails. *)
Definition spec_classify (x : string) : option FieldKind :=
  match scalar_of x with
  | Some k => Some (Scalar k)
  | None =>
      match last_char x with
      | Some c =>
          if decide (c = "*"%char) then Some (Collection (drop_last x))
          else if decide (c = "?"%char) then Some (Reference (drop_last x))
          else None
      | None => None
      end
  end.

Definition is_collection (k : FieldKind) : bool :=
  match k with Collection _ => true | _ => false end.

Definition is_reference (k : FieldKind) : bool :=
  match k with Reference _ => true | _ => false end.

(** How each backend writes a kind. *)
Definition java_render (k : FieldKind) : string :=
  match k with
  | Scalar KString => "String"
  | Scalar KInt => "int"
  | Scalar KBool => "boolean"
  | Collection t => "CatalogMap<" +:+ t +:+ ">"
  | Reference t => t
  end.

Definition cpp_render (k : FieldKind) : string :=
  match k with
  | Scalar KString => "std::string"
  | Scalar KInt => "int32_t"
  | Scalar KBool => "bool"
  | Collection t => "CatalogMap<" +:+ t +:+ ">"
  | Reference _ => "CatalogType*"
  end.

(** What [rstrip] does beyond dropping one marker: markers that are still
    at the end of the target go too. *)
Definition strip_more (k : FieldKind) : FieldKind :=
  match k with
  | Scalar s => Scalar s
  | Collection t => Collection (rstrip "*" t)
  | Reference t => Reference (rstrip "?" t)
  end.



(** A field the generator can classify, and a class made of such fields. *)
Definition field_ok (f : Field) : Prop := is_Some (spec_classify (field_type f)).
Definition class_ok (cls : Class) : Prop := Forall field_ok (cls_fields cls).

Global Instance field_ok_dec f : Decision (field_ok f).
Proof. unfold field_ok. apply _. Defined.
Global Instance class_ok_dec cls : Decision (class_ok cls).
Proof. unfold class_ok. apply _. Defined.

(** * The emitted text, by kind

    What each section of a generated file holds, written from the kinds of
    the fields. The properties below relate the emitters to these texts. *)

(** A written line: the text and its newline. *)
Definition ln (s : string) : string := s +:+ nl.

(** ** Fields by kind *)

(** The kind of a field, and the two families of fields. *)
Definition kind_of (f : Field) : option FieldKind := spec_classify (field_type f).

Definition collection_field (f : Field) : bool :=
  from_option is_collection false (kind_of f).

(** Scalar or Reference. *)
Definition plain_field (f : Field) : bool :=
  from_option (λ k, negb (is_collection k)) false (kind_of f).

(** The Java type written for a field, and the name of its getter. *)
Definition java_type_of (f : Field) : string :=
  from_option (λ k, java_render (strip_more k)) EmptyString (kind_of f).

Definition getter_name (f : Field) : string := "get" +:+ capitalize (field_name f).

(** Capitalization as the specification words it, character by character
    and by the codes of the ASCII letters: [d] is [c] in upper case when
    [d] is no lower-case letter and is either [c] itself or the letter 32
    codes below the lower-case letter [c]; likewise in lower case. *)
Definition upper_letter (c : ascii) : Prop :=
  (65 ≤ nat_of_ascii c)%nat ∧ (nat_of_ascii c ≤ 90)%nat.

Definition lower_letter (c : ascii) : Prop :=
  (97 ≤ nat_of_ascii c)%nat ∧ (nat_of_ascii c ≤ 122)%nat.

Definition upper_cased (c d : ascii) : Prop :=
  ¬ lower_letter d ∧
  (d = c ∨ (lower_letter c ∧ (nat_of_ascii d + 32 = nat_of_ascii c)%nat)).

Definition lower_cased (c d : ascii) : Prop :=
  ¬ upper_letter d ∧
  (d = c ∨ (upper_letter c ∧ (nat_of_ascii d = nat_of_ascii c + 32)%nat)).

(** [y] is [x] with every character in lower case. *)
Inductive all_lower_cased : string → string → Prop :=
  | lower_cased_empty : all_lower_cased EmptyString EmptyString
  | lower_cased_more (c d : ascii) (x y : string) :
      lower_cased c d → all_lower_cased x y →
      all_lower_cased (String c x) (String d y).

(** [y] is [x] with its first character in upper case and every other
    character in lower case. *)
Inductive capitalized : string → string → Prop :=
  | capitalized_empty : capitalized EmptyString EmptyString
  | capitalized_more (c d : ascii) (x y : string) :
      upper_cased c d → all_lower_cased x y →
      capitalized (String c x) (String d y).

(** The classes of the specification's end-to-end scenario, with a reference
    added to the table. *)
Definition Column_cls : Class :=
  mkClass "Column" [mkField "name" "string" None; mkField "index" "int" None] None.

Definition Table_cls : Class :=
  mkClass "Table"
    [mkField "name" "string" None;
     mkField "columns" "Column*" (Some "The columns of the table");
     mkField "isReplicated" "bool" None;
     mkField "partitionColumn" "Column?" None;
     mkField "estimatedTupleCount" "int" None]
    (Some "A table").

(** ** getFields and getChildCollections *)

(** One entry of an emitted Java array of names. *)
Definition name_entry (n : string) : string := ln ("            " +:+ q n +:+ ",").

Definition getFields_text (names : list string) : list string :=
  [ln "    public String[] getFields() {"; ln "        return new String[] {"]
    ++ (name_entry <$> names)
    ++ [ln "        };"; ln ("    };" +:+ nl)].

Definition getChildCollections_text (names : list string) : list string :=
  [ln "    String[] getChildCollections() {"; ln "        return new String[] {"]
    ++ (name_entry <$> names)
    ++ [ln "        };"; ln ("    };" +:+ nl)].

Definition reference_field (f : Field) : bool :=
  from_option is_reference false (kind_of f).

(** A doc comment line, when there is a comment. *)
Definition comment_text (tag : string) (c : option string) : list string :=
  from_option (λ s, [ln (tag +:+ " " +:+ s +:+ " */")]) [] c.

(** ** getField and the getters *)

Definition getField_case (f : Field) : list string :=
  [ln ("        case " +:+ q (field_name f) +:+ ":");
   ln ("            return " +:+ getter_name f +:+ "();")].

Definition getField_text (cls : Class) : list string :=
  [ln "    public Object getField(String field) {"; ln "        switch (field) {"]
    ++ (cls_fields cls ≫= getField_case)
    ++ [ln "        default:";
        ln ("            throw new CatalogException(" +:+ q "Unknown field" +:+ ");");
        ln "        }"; ln ("    }" +:+ nl)].

Definition getter_method (f : Field) : list string :=
  comment_text "    /** GETTER:" (field_comment f)
    ++ [ln ("    public " +:+ java_type_of f +:+ " " +:+ getter_name f +:+ "() {");
        ln (if reference_field f then "        return m_" +:+ field_name f +:+ ".get();"
            else "        return m_" +:+ field_name f +:+ ";");
        ln ("    }" +:+ nl)].

(** ** set *)

Definition set_case (f : Field) : list string :=
  let n := field_name f in
  match kind_of f with
  | Some (Scalar KInt) =>
      [ln ("        case " +:+ q n +:+ ":");
       ln "            assert(value != null);";
       ln ("            m_" +:+ n +:+ " = Integer.parseInt(value);");
       ln "            break;"]
  | Some (Scalar KBool) =>
      [ln ("        case " +:+ q n +:+ ":");
       ln "            assert(value != null);";
       ln ("            m_" +:+ n +:+ " = Boolean.parseBoolean(value);");
       ln "            break;"]
  | Some (Scalar KString) =>
      [ln ("        case " +:+ q n +:+ ":");
       ln "            value = value.trim();";
       ln ("            if (value.startsWith(" +:+ q "null" +:+ ")) value = null;");
       ln "            if (value != null) {";
       ln ("                assert(value.startsWith(" +:+ q (bs +:+ dq) +:+ ") && value.endsWith("
           +:+ q (bs +:+ dq) +:+ "));");
       ln "                value = value.substring(1, value.length() - 1);";
       ln "            }";
       ln ("            m_" +:+ n +:+ " = value;");
       ln "            break;"]
  | Some (Reference _) =>
      [ln ("        case " +:+ q n +:+ ":");
       ln "            value = value.trim();";
       ln ("            if (value.startsWith(" +:+ q "null" +:+ ")) value = null;");
       ln ("            assert((value == null) || value.startsWith(" +:+ q "/" +:+ "));");
       ln ("            m_" +:+ n +:+ ".setUnresolved(value);");
       ln "            break;"]
  | Some (Collection _) | None => []
  end.

Definition set_text (cls : Class) : list string :=
  [ln "    @Override";
   ln "    void set(String field, String value) {";
   ln "        if ((field == null) || (value == null)) {";
   ln ("            throw new CatalogException(" +:+ q "Null value where it shouldn't be." +:+ ");");
   ln ("        }" +:+ nl);
   ln "        switch (field) {"]
    ++ (cls_fields cls ≫= set_case)
    ++ [ln "        default:";
        ln ("            throw new CatalogException(" +:+ q "Unknown field" +:+ ");");
        ln "        }"; ln ("    }" +:+ nl)].

(** ** equals *)

Definition compare_by_value (n : string) : string :=
  ln ("        if (m_" +:+ n +:+ " != other.m_" +:+ n +:+ ") return false;").

Definition compare_null (n : string) : string :=
  ln ("        if ((m_" +:+ n +:+ " == null) != (other.m_" +:+ n +:+ " == null)) return false;").

Definition compare_equals (n : string) : string :=
  ln ("        if ((m_" +:+ n +:+ " != null) && !m_" +:+ n +:+ ".equals(other.m_" +:+ n
      +:+ ")) return false;").

(** The comparison emitted for one field: by value when the Java type is
    written int or boolean, by null test and equals otherwise. *)
Definition equals_compare (f : Field) : list string :=
  if bool_decide (java_type_of f ∈ (["int"; "boolean"] : list string))
  then [compare_by_value (field_name f)]
  else [compare_null (field_name f); compare_equals (field_name f)].

Definition equals_text (cls : Class) : list string :=
  [ln "    public boolean equals(Object obj) {";
   ln "        // this isn't really the convention for null handling";
   ln "        if ((obj == null) || (obj.getClass().equals(getClass()) == false))";
   ln ("            return false;" +:+ nl);
   ln "        // Do the identity check";
   ln "        if (obj == this)";
   ln ("            return true;" +:+ nl);
   ln "        // this is safe because of the class check";
   ln "        // it is also known that the childCollections var will be the same";
   ln "        //  from the class check";
   ln ("        " +:+ cls_name cls +:+ " other = (" +:+ cls_name cls +:+ ") obj;" +:+ nl);
   ln "        // are the fields / children the same? (deep compare)"]
    ++ (cls_fields cls ≫= equals_compare)
    ++ [ln ""; ln "        return true;"; ln ("    }" +:+ nl)].

(** The first claim as the specification states it: no comparison of a
    Collection field is emitted into equals. *)
Definition equals_skips_collections : Prop :=
  ∀ cls f, class_ok cls → f ∈ cls_fields cls → collection_field f →
    compare_equals (field_name f) ∉ chunks (java_equals cls).

(** ** copyFields *)

Definition copy_plain (n : string) : string :=
  ln ("        other.m_" +:+ n +:+ " = m_" +:+ n +:+ ";").

Definition copy_path (n : string) : string :=
  ln ("        other.m_" +:+ n +:+ ".setUnresolved(m_" +:+ n +:+ ".getPath());").

Definition copy_children (n : string) : string :=
  ln ("        other.m_" +:+ n +:+ ".copyFrom(m_" +:+ n +:+ ");").

(** The statement emitted for one field, with the tests in the order of
    the source: the written Java type first, the markers after. *)
Definition copy_statement (f : Field) : list string :=
  if bool_decide (java_type_of f ∈ (["int"; "boolean"; "String"] : list string))
  then [copy_plain (field_name f)]
  else if reference_field f then [copy_path (field_name f)]
  else if collection_field f then [copy_children (field_name f)]
  else [].

(** The statement that the specification describes, by kind. *)
Definition copy_by_kind (f : Field) : list string :=
  match kind_of f with
  | Some (Scalar _) => [copy_plain (field_name f)]
  | Some (Reference _) => [copy_path (field_name f)]
  | Some (Collection _) => [copy_children (field_name f)]
  | None => []
  end.

Definition copyFields_text (cls : Class) (body : Field → list string) : list string :=
  [ln "    @Override"; ln "    void copyFields(CatalogType obj) {"]
    ++ (if bool_decide (0 < length (cls_fields cls)) then
          [ln "        // this is safe from the caller";
           ln ("        " +:+ cls_name cls +:+ " other = (" +:+ cls_name cls +:+ ") obj;" +:+ nl)]
            ++ (cls_fields cls ≫= body)
        else [])
    ++ [ln ("    }" +:+ nl)].

(** A reference whose target class is not named like one of the three
    Java types that copyFields tests for. *)
Definition reference_named_apart (f : Field) : Prop :=
  ∀ t, kind_of f = Some (Reference t) →
       rstrip "?" t ∉ (["int"; "boolean"; "String"] : list string).

(** A class with a reference to a class named String. *)
Definition Label_holder : Class :=
  mkClass "Holder" [mkField "label" "String?" None] None.

(** copyFields as the specification states it: the statement of every
    field is chosen by the kind of the field alone. *)
Definition copyFields_follows_kind : Prop :=
  ∀ cls : Class,
    class_ok cls → java_copyFields cls = (copyFields_text cls copy_by_kind, Ok ()).

(** ** update *)

(** One emitted assignment from the generic value table. *)
Definition update_assign (n ext : string) : string :=
  ln ("    m_" +:+ n +:+ " = m_fields[" +:+ q n +:+ "]." +:+ ext +:+ ";").

(** The member of the table entry that update reads for a field. *)
Definition update_statement (f : Field) : list string :=
  match kind_of f with
  | Some (Reference _) => [update_assign (field_name f) "typeValue"]
  | Some (Scalar KString) => [update_assign (field_name f) "strValue.c_str()"]
  | Some (Scalar KInt) | Some (Scalar KBool) => [update_assign (field_name f) "intValue"]
  | Some (Collection _) | None => []
  end.

Definition update_text (cls : Class) : list string :=
  [ln ("void " +:+ cls_name cls +:+ "::update() {")]
    ++ (cls_fields cls ≫= update_statement)
    ++ [ln ("}" +:+ nl)].

(** The update routine emitted for a class with the one field [f]. *)
Definition update_of (f : Field) : list string :=
  chunks (cpp_update (mkClass "C" [f] None)).

(** ** addChild, removeChild and the registration of the collections *)

Definition child_guard (n : string) : string :=
  ln ("    if (collectionName.compare(" +:+ q n +:+ ") == 0) {").

Definition addChild_block (f : Field) : list string :=
  if collection_field f then
    [child_guard (field_name f);
     ln ("        CatalogType *exists = m_" +:+ field_name f +:+ ".get(childName);");
     ln ("        if (exists)" +:+ nl +:+ "            return NULL;");
     ln ("        return m_" +:+ field_name f +:+ ".add(childName);" +:+ nl +:+ "    }")]
  else [].

Definition addChild_text (cls : Class) : list string :=
  [ln ("CatalogType * " +:+ cls_name cls
       +:+ "::addChild(const std::string &collectionName, const std::string &childName) {")]
    ++ (cls_fields cls ≫= addChild_block)
    ++ [ln ("    return NULL;" +:+ nl +:+ "}" +:+ nl)].

Definition removeChild_block (f : Field) : list string :=
  if collection_field f then
    [child_guard (field_name f);
     ln ("        return m_" +:+ field_name f +:+ ".remove(childName);");
     ln "    }"]
  else [].

Definition removeChild_text (cls : Class) : list string :=
  [ln ("bool " +:+ cls_name cls
       +:+ "::removeChild(const std::string &collectionName, const std::string &childName) {");
   ln "    assert (m_childCollections.find(collectionName) != m_childCollections.end());"]
    ++ (cls_fields cls ≫= removeChild_block)
    ++ [ln "    return false;"; ln ("}" +:+ nl)].

(** What the constructor enters into the two tables of the object. *)
Definition register_statement (f : Field) : list string :=
  if collection_field f then
    [ln ("    m_childCollections[" +:+ q (field_name f) +:+ "] = &m_" +:+ field_name f +:+ ";")]
  else
    [ln ("    m_fields[" +:+ q (field_name f) +:+ "] = value;")].

Definition constructor_text (cls : Class) : list string :=
  let colls := filter (λ f, collection_field f) (cls_fields cls) in
  [ln (cls_name cls +:+ "::" +:+ cls_name cls
       +:+ "(Catalog *catalog, CatalogType *parent, const string &path, const string &name)");
   ln (": CatalogType(catalog, parent, path, name)"
       +:+ (if bool_decide (0 < length colls) then "," else ""))]
    ++ (if bool_decide (0 < length colls) then
          [ln ("  " +:+ join ", "
                 ((λ f, "m_" +:+ field_name f +:+ "(catalog, this, path + " +:+ q "/" +:+ " + "
                        +:+ q (field_name f) +:+ ")") <$> colls))]
        else [])
    ++ [ln "{"; ln "    CatalogValue value;"]
    ++ (cls_fields cls ≫= register_statement)
    ++ [ln ("}" +:+ nl)].

(** ** The forward declarations of the manual backend *)

(** The target class of a Reference or Collection field as the
    classification has it: the type token without its last character. *)
Definition target_of (f : Field) : option string :=
  match kind_of f with
  | Some (Reference t) | Some (Collection t) => Some t
  | Some (Scalar _) | None => None
  end.

(** Appends a name unless it is there already. *)
Definition add_distinct (acc : list string) (t : string) : list string :=
  if bool_decide (t ∈ acc) then acc else acc ++ [t].

Definition typed (f : Field) : Prop := field_type f ≠ EmptyString.

Definition forward_decl (n : string) : string := ln ("class " +:+ n +:+ ";").

(** The chunks that the header holds before the forward declarations. *)
Definition header_lead (gpl_header auto_gen_warning : string) (cls : Class) : list string :=
  [ln gpl_header; ln auto_gen_warning;
   ln ("#ifndef " +:+ pp_unique_str cls);
   ln ("#define " +:+ pp_unique_str cls);
   ln "";
   ln "#include <string>";
   ln ("#include " +:+ q "catalogtype.h");
   ln ("#include " +:+ q "catalogmap.h" +:+ nl);
   ln ("namespace catalog {" +:+ nl)].

(** A class that refers to itself besides another class. *)
Definition Node_cls : Class :=
  mkClass "Node"
    [mkField "parent" "Node?" None; mkField "children" "Node*" None;
     mkField "table" "Table?" None; mkField "tables" "Table*" None;
     mkField "weight" "int" None] None.



(** A class with a collection of its own instances whose token carries the
    marker twice. *)
Definition Nested_cls : Class :=
  mkClass "Node" [mkField "children" "Node**" None] None.

(** ** The whole file of a class *)

Definition java_header_text (gpl_header auto_gen_warning package : string) (cls : Class)
  : list string :=
  [ln gpl_header; ln auto_gen_warning; ln ("package " +:+ package +:+ ";" +:+ nl)]
    ++ from_option (λ c, [ln ("/**" +:+ nl +:+ " * " +:+ c); ln " */"]) [] (cls_comment cls)
    ++ [ln ("public class " +:+ cls_name cls +:+ " extends CatalogType {" +:+ nl)].

Definition field_decl (f : Field) : list string :=
  if decide (java_type_of f = "String") then
    [ln ("    String m_" +:+ field_name f +:+ " = new String();")]
  else if reference_field f then
    [ln ("    Catalog.CatalogReference<" +:+ java_type_of f +:+ "> m_" +:+ field_name f
         +:+ " = new CatalogReference<>();")]
  else
    [ln ("    " +:+ java_type_of f +:+ " m_" +:+ field_name f +:+ ";")].

Definition base_value (f : Field) : list string :=
  if collection_field f then
    [ln ("        m_" +:+ field_name f +:+ " = new " +:+ java_type_of f +:+ "(getCatalog(), this, "
         +:+ q (field_name f) +:+ ", " +:+ drop_last (field_type f)
         +:+ ".class, m_parentMap.m_depth + 1);")]
  else [].

Definition setBaseValues_text (cls : Class) : list string :=
  [ln "    void setBaseValues(CatalogMap<? extends CatalogType> parentMap, String name) {";
   ln "        super.setBaseValues(parentMap, name);"]
    ++ (cls_fields cls ≫= base_value)
    ++ [ln ("    }" +:+ nl)].

Definition setter_method (f : Field) : list string :=
  if collection_field f then []
  else
    comment_text "    /** SETTER:" (field_comment f)
      ++ [ln ("    public void set" +:+ capitalize (field_name f) +:+ "(" +:+ java_type_of f
              +:+ " value) {");
          ln (if reference_field f then "        m_" +:+ field_name f +:+ ".set(value);"
              else "        m_" +:+ field_name f +:+ " = value;");
          ln ("    }" +:+ nl)].

(** Everything written to the file of a class whose fields all classify. *)
Definition class_text (gpl_header auto_gen_warning package : string) (cls : Class)
  : list string :=
  java_header_text gpl_header auto_gen_warning package cls
    ++ ((cls_fields cls ≫= field_decl) ++ [ln ""])
    ++ setBaseValues_text cls
    ++ getFields_text (field_name <$> filter (λ f, plain_field f) (cls_fields cls))
    ++ getChildCollections_text (field_name <$> filter (λ f, collection_field f) (cls_fields cls))
    ++ getField_text cls
    ++ (cls_fields cls ≫= getter_method)
    ++ (cls_fields cls ≫= setter_method)
    ++ set_text cls
    ++ copyFields_text cls copy_statement
    ++ equals_text cls
    ++ [ln "}"].

(** ** The run *)

(** The shell commands of the managed backend's setup. *)
Definition java_setup_cmds : list string :=
  ["rm -rf out/javasrc/*"; "mkdir -p out/javasrc/";
   "cp in/javasrc/Catalog.java out/javasrc";
   "cp in/javasrc/CatalogType.java out/javasrc";
   "cp in/javasrc/CatalogMap.java out/javasrc";
   "cp in/javasrc/CatalogException.java out/javasrc";
   "cp in/javasrc/CatalogChangeGroup.java out/javasrc";
   "cp in/javasrc/CatalogDiffEngine.java out/javasrc";
   "cp in/javasrc/FilteredCatalogDiffEngine.java out/javasrc"].

Definition java_path (cls : Class) : string :=
  java_postpath +:+ "/" +:+ cls_name cls +:+ ".java".

(** The files of the classes written in full, the later ones over the
    earlier ones of the same name. *)
Definition written_java (gpl_header auto_gen_warning : string) (classes : list Class)
    (fs : gmap string (list string)) : gmap string (list string) :=
  foldl (λ m c, <[java_path c := class_text gpl_header auto_gen_warning javapkg c]> m)
    fs classes.

(** The body of the loop of [genjava] in [main]. *)
Definition java_body (gpl_header auto_gen_warning : string) (cls : Class) : Gen unit :=
  to_file (java_postpath +:+ "/" +:+ cls_name cls +:+ ".java")
    (genjava_class gpl_header auto_gen_warning javapkg cls).

(** The third claim as the specification states it: a class list with a
    field that does not classify leaves no file written. *)
Definition no_partial_output (gpl_header auto_gen_warning : string)
    (dict_keys : list string → list string) : Prop :=
  ∀ classes : list Class,
    ¬ Forall class_ok classes →
    files (main gpl_header auto_gen_warning dict_keys classes empty_world).1 = ∅.

(** A class with a field of an unknown type. *)
Definition Broken_cls : Class :=
  mkClass "Broken" [mkField "id" "int" None; mkField "ratio" "float" None] None.

(** * The rest of the emitted text

    The sections of the generated files that the sections above leave out,
    and the world that a whole run leaves. *)

(** The C++ type written for a field. *)
Definition cpp_type_of (f : Field) : string :=
  from_option (λ k, cpp_render (strip_more k)) EmptyString (kind_of f).

(** Reference or Collection: the fields whose token ends with a marker. *)
Definition marker_field (f : Field) : bool :=
  from_option (λ k, is_collection k || is_reference k) false (kind_of f).

(** ** The header of the manual backend *)

Definition member_decl (f : Field) : list string :=
  [ln ("    " +:+ cpp_type_of f +:+ " m_" +:+ field_name f +:+ ";")].

(** The signature of the getter declared for a field. *)
Definition getter_signature (f : Field) : string :=
  match kind_of f with
  | Some (Scalar KString) => "    const std::string & " +:+ field_name f +:+ "() const;"
  | Some (Reference t) => "    const " +:+ t +:+ " * " +:+ field_name f +:+ "() const;"
  | Some (Collection _) =>
      "    const " +:+ cpp_type_of f +:+ " & " +:+ field_name f +:+ "() const;"
  | Some (Scalar _) | None =>
      "    " +:+ cpp_type_of f +:+ " " +:+ field_name f +:+ "() const;"
  end.

Definition getter_decl (f : Field) : list string :=
  comment_text "    /** GETTER:" (field_comment f) ++ [ln (getter_signature f)].

Definition header_text (gpl_header auto_gen_warning : string) (cls : Class)
    (referenced : list string) : list string :=
  header_lead gpl_header auto_gen_warning cls
    ++ (forward_decl <$> referenced)
    ++ from_option (λ c, [ln ("/**" +:+ nl +:+ " * " +:+ c); ln " */"]) [] (cls_comment cls)
    ++ [ln ("class " +:+ cls_name cls +:+ " : public CatalogType {");
        ln "    friend class Catalog;";
        ln ("    friend class CatalogMap<" +:+ cls_name cls +:+ ">;");
        ln (nl +:+ "protected:");
        ln ("    " +:+ cls_name cls
            +:+ "(Catalog * catalog, CatalogType * parent, const std::string &path, const std::string &name);")]
    ++ (cls_fields cls ≫= member_decl)
    ++ [ln (nl +:+ "    virtual void update();" +:+ nl);
        ln "    virtual CatalogType * addChild(const std::string &collectionName, const std::string &name);";
        ln "    virtual CatalogType * getChild(const std::string &collectionName, const std::string &childName) const;";
        ln "    virtual bool removeChild(const std::string &collectionName, const std::string &childName);";
        ln (nl +:+ "public:");
        ln ("    ~" +:+ cls_name cls +:+ "();" +:+ nl)]
    ++ (cls_fields cls ≫= getter_decl)
    ++ [ln ("};" +:+ nl); ln ("} // namespace catalog" +:+ nl);
        ln ("#endif //  " +:+ pp_unique_str cls)].


(** ** The definition file of the manual backend *)

Definition include_of (f : Field) : string :=
  "#include " +:+ q (lower (drop_last (field_type f)) +:+ ".h").

Definition includes_text (dict_keys : list string → list string) (cls : Class)
  : list string :=
  [ln "#include <cassert>";
   ln ("#include " +:+ q (lower (cls_name cls) +:+ ".h"));
   ln ("#include " +:+ q "catalog.h")]
    ++ (ln <$> dict_keys (include_of <$> filter (λ f, marker_field f) (cls_fields cls)))
    ++ [ln (nl +:+ "using namespace catalog;"); ln ("using namespace std;" +:+ nl)].

Definition destructor_block (f : Field) : list string :=
  if collection_field f then
    let ftype := rstrip "*" (field_type f) in
    let itr := lower ftype +:+ "_iter" in
    let privname := "m_" +:+ field_name f in
    [ln ("    std::map<std::string, " +:+ ftype +:+ "*>::const_iterator " +:+ itr
         +:+ " = " +:+ privname +:+ ".begin();");
     ln ("    while (" +:+ itr +:+ " != " +:+ privname +:+ ".end()) {");
     ln ("        delete " +:+ itr +:+ "->second;");
     ln ("        " +:+ itr +:+ "++;");
     ln "    }";
     ln ("    " +:+ privname +:+ ".clear();" +:+ nl)]
  else [].

Definition destructor_text (cls : Class) : list string :=
  [ln (cls_name cls +:+ "::~" +:+ cls_name cls +:+ "() {")]
    ++ (cls_fields cls ≫= destructor_block)
    ++ [ln ("}" +:+ nl)].

Definition getChild_block (f : Field) : list string :=
  if collection_field f then
    [ln ("    if (collectionName.compare(" +:+ q (field_name f) +:+ ") == 0)");
     ln ("        return m_" +:+ field_name f +:+ ".get(childName);")]
  else [].

Definition getChild_text (cls : Class) : list string :=
  [ln ("CatalogType * " +:+ cls_name cls
       +:+ "::getChild(const std::string &collectionName, const std::string &childName) const {")]
    ++ (cls_fields cls ≫= getChild_block)
    ++ [ln ("    return NULL;" +:+ nl +:+ "}" +:+ nl)].

(** The getter defined for a field of the class named [clsname]. *)
Definition getter_def (clsname : string) (f : Field) : list string :=
  let n := field_name f in
  match kind_of f with
  | Some (Scalar KString) =>
      [ln ("const string & " +:+ clsname +:+ "::" +:+ n +:+ "() const {" +:+ nl
           +:+ "    return m_" +:+ n +:+ ";" +:+ nl +:+ "}" +:+ nl)]
  | Some (Reference t) =>
      [ln ("const " +:+ t +:+ " * " +:+ clsname +:+ "::" +:+ n +:+ "() const {");
       ln ("    return dynamic_cast<" +:+ t +:+ "*>(m_" +:+ n +:+ ");" +:+ nl +:+ "}" +:+ nl)]
  | Some (Collection _) =>
      [ln ("const " +:+ cpp_type_of f +:+ " & " +:+ clsname +:+ "::" +:+ n +:+ "() const {" +:+ nl
           +:+ "    return m_" +:+ n +:+ ";" +:+ nl +:+ "}" +:+ nl)]
  | Some (Scalar _) | None =>
      [ln (cpp_type_of f +:+ " " +:+ clsname +:+ "::" +:+ n +:+ "() const {" +:+ nl
           +:+ "    return m_" +:+ n +:+ ";" +:+ nl +:+ "}" +:+ nl)]
  end.

Definition source_text (gpl_header auto_gen_warning : string)
    (dict_keys : list string → list string) (cls : Class) : list string :=
  [ln gpl_header; ln auto_gen_warning]
    ++ includes_text dict_keys cls
    ++ constructor_text cls
    ++ destructor_text cls
    ++ update_text cls
    ++ addChild_text cls
    ++ getChild_text cls
    ++ removeChild_text cls
    ++ (cls_fields cls ≫= getter_def (cls_name cls)).

(** ** The world after a whole run *)

(** The names that [referencedClasses] returns. *)
Definition forward_names (cls : Class) : list string :=
  let all := foldl add_distinct [] (omap target_of (cls_fields cls)) in
  if bool_decide (cls_name cls ∈ all) then remove_first (cls_name cls) all else all.

Definition cpp_setup_cmds : list string :=
  ["rm -rf out/cppsrc/*"; "mkdir -p out/cppsrc/";
   "cp in/cppsrc/catalog.h out/cppsrc";
   "cp in/cppsrc/catalogtype.h out/cppsrc";
   "cp in/cppsrc/catalogmap.h out/cppsrc";
   "cp in/cppsrc/catalog.cpp out/cppsrc";
   "cp in/cppsrc/catalogtype.cpp out/cppsrc"].

Definition h_path (cls : Class) : string :=
  cpp_postpath +:+ "/" +:+ lower (cls_name cls) +:+ ".h".

Definition cpp_path (cls : Class) : string :=
  cpp_postpath +:+ "/" +:+ lower (cls_name cls) +:+ ".cpp".

(** The two files of the manual backend for the classes written in full, in
    the order given, the later ones over the earlier ones of the same path. *)
Definition written_cpp (gpl_header auto_gen_warning : string)
    (dict_keys : list string → list string) (classes : list Class)
    (fs : gmap string (list string)) : gmap string (list string) :=
  foldl (λ m c,
           <[cpp_path c := source_text gpl_header auto_gen_warning dict_keys c]>
             (<[h_path c := header_text gpl_header auto_gen_warning c (forward_names c)]> m))
    fs classes.

(** The body of the loop of [gencpp] in [main]. *)
Definition cpp_body (gpl_header auto_gen_warning : string)
    (dict_keys : list string → list string) (cls : Class) : Gen unit :=
  referenced ← lift_gen (referencedClasses cls);
  to_file (cpp_postpath +:+ "/" +:+ lower (cls_name cls) +:+ ".h")
    (gencpp_header gpl_header auto_gen_warning cls referenced) ;;
  to_file (cpp_postpath +:+ "/" +:+ lower (cls_name cls) +:+ ".cpp")
    (gencpp_source gpl_header auto_gen_warning dict_keys cls).


(** A class cut down to its Scalar and Reference fields, and to its
    Collection fields. *)
Definition plain_part (cls : Class) : Class :=
  mkClass (cls_name cls) (filter (λ f, plain_field f) (cls_fields cls)) (cls_comment cls).

Definition collection_part (cls : Class) : Class :=
  mkClass (cls_name cls) (filter (λ f, collection_field f) (cls_fields cls)) (cls_comment cls).

(** The result of an emitter or of a run is an exception. *)
Definition raises {A} (r : result A) : Prop :=
  match r with Raise _ => True | Ok _ => False end.

(** A target that does not itself end with the marker of its kind. *)
Definition single_marker (k : FieldKind) : Prop :=
  match k with
  | Scalar _ => True
  | Collection t => last_char t ≠ Some "*"%char
  | Reference t => last_char t ≠ Some "?"%char
  end.

(** The header up to the member declarations. *)
Definition header_prefix (gpl_header auto_gen_warning : string) (cls : Class)
    (referenced : list string) : list string :=
  header_lead gpl_header auto_gen_warning cls
    ++ (forward_decl <$> referenced)
    ++ from_option (λ c, [ln ("/**" +:+ nl +:+ " * " +:+ c); ln " */"]) [] (cls_comment cls)
    ++ [ln ("class " +:+ cls_name cls +:+ " : public CatalogType {");
        ln "    friend class Catalog;";
        ln ("    friend class CatalogMap<" +:+ cls_name cls +:+ ">;");
        ln (nl +:+ "protected:");
        ln ("    " +:+ cls_name cls
            +:+ "(Catalog * catalog, CatalogType * parent, const std::string &path, const std::string &name);")].

(** A dictionary lists the keys that were put into it, in some order. *)
Definition lists_its_keys (dict_keys : list string → list string) : Prop :=
  ∀ (l : list string) (x : string), x ∈ dict_keys l ↔ x ∈ l.

(** A class with a field of an unknown type and one with a field whose
    type token is empty. *)
Definition Untyped_cls : Class :=
  mkClass "Untyped" [mkField "id" "int" None; mkField "ghost" EmptyString None] None.

(** * Properties *)

(** ** Type rendering *)

Example javatypify_int : javatypify "int" = Ok "int".
Proof. reflexivity. Qed.
Example javatypify_coll : javatypify "Column*" = Ok "CatalogMap<Column>".
Proof. reflexivity. Qed.
Example javatypify_coll2 : javatypify "Column**" = Ok "CatalogMap<Column>".
Proof. reflexivity. Qed.
Example javatypify_ref : javatypify "Table?" = Ok "Table".
Proof. reflexivity. Qed.
Example javatypify_bad : javatypify "float" = Raise (Exception "bad type: float").
Proof. reflexivity. Qed.
Example javatypify_empty : javatypify "" = Raise IndexError.
Proof. reflexivity. Qed.
Example capitalize_mixed : capitalize "tableName" = "Tablename".
Proof. reflexivity. Qed.

(** ** Strings *)

Lemma rstrip_drop_last (m : ascii) (x : string) :
  last_char x = Some m → rstrip m x = rstrip m (drop_last x).
Proof.
  induction x as [|c r IH]; [done|].
  destruct r as [|d r'].
  - intros [= ->]. simpl. by rewrite decide_True.
  - intros Hl. change (last_char (String c (String d r'))) with (last_char (String d r')) in Hl.
    change (drop_last (String c (String d r'))) with (String c (drop_last (String d r'))).
    change (rstrip m (String c (String d r')))
      with (match rstrip m (String d r') with
            | EmptyString => if decide (c = m) then EmptyString else String c EmptyString
            | String e r2 => String c (String e r2)
            end).
    rewrite (IH Hl). reflexivity.
Qed.

Lemma last_char_snoc (x : string) (c : ascii) :
  last_char (x +:+ String c EmptyString) = Some c.
Proof.
  induction x as [|d r IH]; [done|].
  change (String d r +:+ String c EmptyString) with (String d (r +:+ String c EmptyString)).
  simpl. rewrite IH. by destruct (r +:+ String c EmptyString) eqn:E; [destruct r|].
Qed.

Lemma drop_last_snoc (x : string) (c : ascii) :
  drop_last (x +:+ String c EmptyString) = x.
Proof.
  induction x as [|d r IH]; [done|].
  change (String d r +:+ String c EmptyString) with (String d (r +:+ String c EmptyString)).
  simpl. rewrite IH. by destruct (r +:+ String c EmptyString) eqn:E; [destruct r|].
Qed.

Lemma last_char_None (x : string) : last_char x = None ↔ x = EmptyString.
Proof.
  split; [|by intros ->].
  induction x as [|c r IH]; [done|]. destruct r; [done|]. intros H. by specialize (IH H).
Qed.

(** ** Classification *)

Lemma scalar_of_Some (x : string) (k : ScalarKind) :
  scalar_of x = Some k →
  x = match k with KString => "string" | KInt => "int" | KBool => "bool" end.
Proof. unfold scalar_of. repeat case_decide; naive_solver. Qed.

Lemma scalar_of_None (x : string) :
  scalar_of x = None → x ≠ "string" ∧ x ≠ "int" ∧ x ≠ "bool".
Proof. unfold scalar_of. repeat case_decide; naive_solver. Qed.

Lemma javatypify_classified (x : string) (k : FieldKind) :
  spec_classify x = Some k → javatypify x = Ok (java_render (strip_more k)).
Proof.
  unfold spec_classify, javatypify. destruct (scalar_of x) as [s|] eqn:Hs.
  - intros [= <-]. apply scalar_of_Some in Hs. by destruct s; subst x.
  - apply scalar_of_None in Hs as (H1 & H2 & H3).
    rewrite !decide_False by done.
    destruct (last_char x) as [c|] eqn:Hc; [|done].
    repeat case_decide; intros [= <-]; subst c; simpl;
      by rewrite (rstrip_drop_last _ _ Hc).
Qed.

Lemma cpptypify_classified (x : string) (k : FieldKind) :
  spec_classify x = Some k → cpptypify x = Ok (cpp_render (strip_more k)).
Proof.
  unfold spec_classify, cpptypify. destruct (scalar_of x) as [s|] eqn:Hs.
  - intros [= <-]. apply scalar_of_Some in Hs. by destruct s; subst x.
  - apply scalar_of_None in Hs as (H1 & H2 & H3).
    rewrite !decide_False by done.
    destruct (last_char x) as [c|] eqn:Hc; [|done].
    repeat case_decide; intros [= <-]; subst c; simpl;
      by rewrite ?(rstrip_drop_last _ _ Hc).
Qed.

Lemma javatypify_unclassified (x : string) :
  spec_classify x = None →
  javatypify x = Raise (if decide (x = EmptyString) then IndexError
                        else Exception ("bad type: " +:+ x)).
Proof.
  unfold spec_classify, javatypify. destruct (scalar_of x) as [s|] eqn:Hs; [done|].
  apply scalar_of_None in Hs as (H1 & H2 & H3).
  rewrite !decide_False by done.
  destruct (last_char x) as [c|] eqn:Hc.
  - assert (x ≠ EmptyString) by (by intros ->).
    rewrite (decide_False (P := x = EmptyString)) by done.
    by repeat case_decide.
  - apply last_char_None in Hc as ->. done.
Qed.

Lemma cpptypify_unclassified (x : string) :
  spec_classify x = None →
  cpptypify x = Raise (if decide (x = EmptyString) then IndexError
                       else Exception ("bad type: " +:+ x)).
Proof.
  unfold spec_classify, cpptypify. destruct (scalar_of x) as [s|] eqn:Hs; [done|].
  apply scalar_of_None in Hs as (H1 & H2 & H3).
  rewrite !decide_False by done.
  destruct (last_char x) as [c|] eqn:Hc.
  - assert (x ≠ EmptyString) by (by intros ->).
    rewrite (decide_False (P := x = EmptyString)) by done.
    by repeat case_decide.
  - apply last_char_None in Hc as ->. done.
Qed.



(** ** The emission monad *)

Lemma write_one (s : string) : write [s] = ([ln s], Ok ()).
Proof. reflexivity. Qed.

Lemma emit_bind_ok {A B} (m : Emit A) (k : A → Emit B) (o : list string) (a : A) :
  m = (o, Ok a) → m ≫= k = (o ++ chunks (k a), outcome (k a)).
Proof. intros ->. reflexivity. Qed.

Lemma emit_bind_raise {A B} (m : Emit A) (k : A → Emit B) (o : list string) (e : exn) :
  m = (o, Raise e) → m ≫= k = (o, Raise e).
Proof. intros ->. reflexivity. Qed.

Lemma emit_eta {A} (m : Emit A) : m = (chunks m, outcome m).
Proof. by destruct m. Qed.

Lemma lift_ok_bind {A B} (a : A) (k : A → Emit B) : lift (Ok a) ≫= k = k a.
Proof. rewrite (emit_eta (k a)). reflexivity. Qed.

Lemma lift_raise_bind {A B} (e : exn) (k : A → Emit B) :
  lift (Raise e) ≫= k = ([], Raise e).
Proof. reflexivity. Qed.

(** A loop whose body never raises writes the bodies' chunks in order. *)
Lemma for_each_ok {A} (l : list A) (body : A → Emit unit) (out : A → list string) :
  (∀ x, x ∈ l → body x = (out x, Ok ())) →
  for_each l body = (l ≫= out, Ok ()).
Proof.
  induction l as [|x r IH]; intros Hb; [reflexivity|].
  simpl. rewrite (emit_bind_ok _ _ (out x) ()) by (apply Hb; left).
  rewrite IH by (intros y Hy; apply Hb; by right). reflexivity.
Qed.

(** A loop stops at the first body that raises; what was written stays. *)
Lemma for_each_raise {A} (l1 l2 : list A) (x : A) (body : A → Emit unit)
    (out : A → list string) (o : list string) (e : exn) :
  (∀ y, y ∈ l1 → body y = (out y, Ok ())) →
  body x = (o, Raise e) →
  for_each (l1 ++ x :: l2) body = ((l1 ≫= out) ++ o, Raise e).
Proof.
  intros Hb Hx. induction l1 as [|y r IH]; simpl.
  - by rewrite (emit_bind_raise _ _ o e).
  - rewrite (emit_bind_ok _ _ (out y) ()) by (apply Hb; left).
    rewrite IH by (intros z Hz; apply Hb; by right).
    unfold chunks, outcome. cbn [fst snd mbind list_bind]. by rewrite <- app_assoc.
Qed.

Lemma bind_if_singleton {A B} (p : A → bool) (g : A → B) (l : list A) :
  l ≫= (λ x, if p x then [g x] else []) = g <$> filter (λ x, p x) l.
Proof.
  induction l as [|x r IH]; [done|].
  cbn [mbind list_bind]. fold (r ≫= (λ x, if p x then [g x] else [])). rewrite IH.
  destruct (p x) eqn:E.
  - rewrite filter_cons_True; [done|]. simpl. by rewrite E.
  - rewrite filter_cons_False; [done|]. simpl. rewrite E. by intros [].
Qed.

(** ** What the last character tells about a field *)

Lemma last_is_classified (x : string) (k : FieldKind) :
  spec_classify x = Some k →
  last_is x "*" = Ok (is_collection k) ∧ last_is x "?" = Ok (is_reference k).
Proof.
  unfold spec_classify, last_is. destruct (scalar_of x) as [s|] eqn:Hs.
  - intros [= <-]. apply scalar_of_Some in Hs. by destruct s; subst x.
  - destruct (last_char x) as [c|]; [|done].
    destruct (decide (c = "*"%char)) as [->|H1]; [by intros [= <-]|].
    destruct (decide (c = "?"%char)) as [->|H2]; [by intros [= <-]|done].
Qed.

Lemma field_ok_kind (f : Field) :
  field_ok f → ∃ k, spec_classify (field_type f) = Some k.
Proof. by intros [k Hk]; exists k. Qed.

Lemma class_ok_field (cls : Class) (f : Field) :
  class_ok cls → f ∈ cls_fields cls → ∃ k, spec_classify (field_type f) = Some k.
Proof.
  intros Hok Hf. apply field_ok_kind. unfold class_ok in Hok.
  rewrite Forall_forall in Hok. by apply Hok.
Qed.

Lemma javatypify_field (f : Field) (k : FieldKind) :
  kind_of f = Some k → javatypify (field_type f) = Ok (java_type_of f).
Proof. intros Hk. unfold java_type_of. rewrite Hk. by apply javatypify_classified. Qed.

Lemma Table_ok : class_ok Table_cls.
Proof. repeat constructor; by eexists. Qed.

Lemma Column_ok : class_ok Column_cls.
Proof. repeat constructor; by eexists. Qed.

(** ** getFields and getChildCollections *)

Lemma java_getFields_text (cls : Class) :
  class_ok cls →
  java_getFields cls =
    (getFields_text (field_name <$> filter (λ f, plain_field f) (cls_fields cls)), Ok ()).
Proof.
  intros Hok. unfold java_getFields.
  rewrite (for_each_ok _ _ (λ f, if plain_field f then [(name_entry ∘ field_name) f] else [])).
  - rewrite bind_if_singleton, list_fmap_compose. reflexivity.
  - intros f Hf. destruct (class_ok_field _ _ Hok Hf) as [k Hk].
    destruct (last_is_classified _ _ Hk) as [-> _]. rewrite lift_ok_bind.
    unfold plain_field, kind_of. rewrite Hk. simpl. by destruct (is_collection k).
Qed.

Lemma java_getChildCollections_text (cls : Class) :
  class_ok cls →
  java_getChildCollections cls =
    (getChildCollections_text
       (field_name <$> filter (λ f, collection_field f) (cls_fields cls)), Ok ()).
Proof.
  intros Hok. unfold java_getChildCollections.
  rewrite (for_each_ok _ _
             (λ f, if collection_field f then [(name_entry ∘ field_name) f] else [])).
  - rewrite bind_if_singleton, list_fmap_compose. reflexivity.
  - intros f Hf. destruct (class_ok_field _ _ Hok Hf) as [k Hk].
    destruct (last_is_classified _ _ Hk) as [-> _]. rewrite lift_ok_bind.
    unfold collection_field, kind_of. rewrite Hk. simpl. by destruct (is_collection k).
Qed.

(** C6. For a class whose fields all classify, the array emitted into
    getFields() lists exactly the names of the Scalar and Reference fields,
    in descriptor order, and the array emitted into getChildCollections()
    exactly the names of the Collection fields, in descriptor order. *)
Theorem field_name_arrays (cls : Class) :
  class_ok cls →
  java_getFields cls =
    (getFields_text (field_name <$> filter (λ f, plain_field f) (cls_fields cls)), Ok ()) ∧
  java_getChildCollections cls =
    (getChildCollections_text
       (field_name <$> filter (λ f, collection_field f) (cls_fields cls)), Ok ()).
Proof.
  intros Hok. split; [by apply java_getFields_text|by apply java_getChildCollections_text].
Qed.

Lemma field_name_arrays_Table :
  class_ok Table_cls ∧
  java_getFields Table_cls =
    (getFields_text (field_name <$> filter (λ f, plain_field f) (cls_fields Table_cls)), Ok ()) ∧
  java_getChildCollections Table_cls =
    (getChildCollections_text
       (field_name <$> filter (λ f, collection_field f) (cls_fields Table_cls)), Ok ()).
Proof. split; [exact Table_ok | apply (field_name_arrays Table_cls), Table_ok]. Defined.

Example Table_getFields_names :
  field_name <$> filter (λ f, plain_field f) (cls_fields Table_cls)
  = ["name"; "isReplicated"; "partitionColumn"; "estimatedTupleCount"].
Proof. reflexivity. Qed.

Example Table_getChildCollections_names :
  field_name <$> filter (λ f, collection_field f) (cls_fields Table_cls) = ["columns"].
Proof. reflexivity. Qed.

(** ** Facts about one classified field *)

Lemma last_is_star_field (f : Field) (k : FieldKind) :
  kind_of f = Some k → last_is (field_type f) "*" = Ok (collection_field f).
Proof.
  intros Hk. unfold collection_field. rewrite Hk. by apply last_is_classified.
Qed.

Lemma last_is_query_field (f : Field) (k : FieldKind) :
  kind_of f = Some k → last_is (field_type f) "?" = Ok (reference_field f).
Proof.
  intros Hk. unfold reference_field. rewrite Hk. by apply last_is_classified.
Qed.

(** Brings the facts on a field of a well-classified class into the goal. *)
Ltac classify_field Hok Hf k Hk :=
  destruct (class_ok_field _ _ Hok Hf) as [k Hk];
  rewrite ?(last_is_star_field _ _ Hk), ?(last_is_query_field _ _ Hk),
    ?(javatypify_field _ _ Hk).

Lemma elem_of_bind_intro {A B} (g : A → list B) (l : list A) (x : A) (y : B) :
  x ∈ l → y ∈ g x → y ∈ l ≫= g.
Proof. intros Hx Hy. apply list_elem_of_bind. eauto. Qed.

(** ** getField and the getters *)

Lemma java_getField_text (cls : Class) : java_getField cls = (getField_text cls, Ok ()).
Proof.
  unfold java_getField. rewrite (for_each_ok _ _ getField_case); [reflexivity|].
  intros f _. reflexivity.
Qed.

Lemma java_getters_text (cls : Class) :
  class_ok cls → java_getters cls = (cls_fields cls ≫= getter_method, Ok ()).
Proof.
  intros Hok. unfold java_getters. apply for_each_ok. intros f Hf.
  classify_field Hok Hf k Hk. unfold getter_method.
  destruct (field_comment f), (reference_field f); reflexivity.
Qed.

(** Capitalization by [str.capitalize] is the capitalization of the
    specification, which determines its result. *)
Lemma upper_char_cased (c : ascii) : upper_cased c (upper_char c).
Proof.
  destruct c as [[] [] [] [] [] [] [] []];
    (split;
     [intros [H1 H2]; vm_compute in H1, H2; lia
     |first [left; reflexivity | right; split; [split|]; vm_compute; lia]]).
Qed.

Lemma lower_char_cased (c : ascii) : lower_cased c (lower_char c).
Proof.
  destruct c as [[] [] [] [] [] [] [] []];
    (split;
     [intros [H1 H2]; vm_compute in H1, H2; lia
     |first [left; reflexivity | right; split; [split|]; vm_compute; lia]]).
Qed.

Lemma lower_all_cased (x : string) : all_lower_cased x (lower x).
Proof.
  induction x as [|c r IH]; [constructor|].
  change (lower (String c r)) with (String (lower_char c) (lower r)).
  constructor; [apply lower_char_cased | apply IH].
Qed.

Lemma capitalize_capitalized (x : string) : capitalized x (capitalize x).
Proof.
  destruct x as [|c r]; [constructor|].
  constructor; [apply upper_char_cased | apply lower_all_cased].
Qed.

Lemma nat_of_ascii_inj (c d : ascii) : nat_of_ascii c = nat_of_ascii d → c = d.
Proof.
  intros H. rewrite <- (ascii_nat_embedding c), <- (ascii_nat_embedding d). by rewrite H.
Qed.

Lemma upper_cased_unique (c d d' : ascii) :
  upper_cased c d → upper_cased c d' → d = d'.
Proof.
  intros [Hd [->|[Hc He]]] [Hd' [->|[Hc' He']]]; [done|done|done|].
  apply nat_of_ascii_inj. lia.
Qed.

Lemma lower_cased_unique (c d d' : ascii) :
  lower_cased c d → lower_cased c d' → d = d'.
Proof.
  intros [Hd [->|[Hc He]]] [Hd' [->|[Hc' He']]]; [done|done|done|].
  apply nat_of_ascii_inj. lia.
Qed.

Lemma all_lower_cased_unique (x y y' : string) :
  all_lower_cased x y → all_lower_cased x y' → y = y'.
Proof.
  intros H. revert y'. induction H as [|c d x y Hc Hx IH]; intros y' H'.
  - by inversion H'.
  - inversion H' as [|c' d' x' y'' Hc' Hx']; subst.
    f_equal; [by apply (lower_cased_unique c)|by apply IH].
Qed.

Lemma capitalized_unique (x y y' : string) :
  capitalized x y → capitalized x y' → y = y'.
Proof.
  intros H H'. destruct H as [|c d x y Hc Hx].
  - by inversion H'.
  - inversion H' as [|c' d' x' y'' Hc' Hx']; subst.
    f_equal; [by apply (upper_cased_unique c)|by apply (all_lower_cased_unique x)].
Qed.

(** C10. For a class whose fields all classify, every field has one
    accessor name: "get" followed by the field name with its first character
    in upper case and every other character in lower case, so that no
    capital letter is left after the first character. The getField dispatch
    emits, for each field in descriptor order, a case returning the call of
    exactly that name, and the getters section emits a method of exactly
    that name: every dispatch case has its method, also when capitalizing
    loses interior capitals. *)
Theorem getField_dispatch_targets (cls : Class) :
  class_ok cls →
  java_getField cls = (getField_text cls, Ok ()) ∧
  java_getters cls = (cls_fields cls ≫= getter_method, Ok ()) ∧
  ∀ f, f ∈ cls_fields cls →
    ∃ m : string,
      capitalized (field_name f) m ∧
      (∀ m', capitalized (field_name f) m' → m' = m) ∧
      getter_name f = "get" +:+ m ∧
      ln ("            return get" +:+ m +:+ "();") ∈ chunks (java_getField cls) ∧
      ln ("    public " +:+ java_type_of f +:+ " get" +:+ m +:+ "() {")
        ∈ chunks (java_getters cls).
Proof.
  intros Hok. split; [apply java_getField_text|]. split; [by apply java_getters_text|].
  intros f Hf. exists (capitalize (field_name f)).
  split; [apply capitalize_capitalized|].
  split; [intros m' Hm'; apply (capitalized_unique _ _ _ Hm'), capitalize_capitalized|].
  split; [reflexivity|]. split.
  - rewrite java_getField_text. unfold chunks, getField_text. cbn [fst].
    apply elem_of_app. right. apply elem_of_app. left.
    apply (elem_of_bind_intro _ _ f); [done|]. unfold getField_case. repeat constructor.
  - rewrite java_getters_text by done. unfold chunks. cbn [fst].
    apply (elem_of_bind_intro _ _ f); [done|]. unfold getter_method.
    apply elem_of_app. right. repeat constructor.
Qed.

Lemma getField_dispatch_targets_Table :
  class_ok Table_cls ∧
  java_getField Table_cls = (getField_text Table_cls, Ok ()) ∧
  java_getters Table_cls = (cls_fields Table_cls ≫= getter_method, Ok ()) ∧
  ∀ f, f ∈ cls_fields Table_cls →
    ∃ m : string,
      capitalized (field_name f) m ∧
      (∀ m', capitalized (field_name f) m' → m' = m) ∧
      getter_name f = "get" +:+ m ∧
      ln ("            return get" +:+ m +:+ "();") ∈ chunks (java_getField Table_cls) ∧
      ln ("    public " +:+ java_type_of f +:+ " get" +:+ m +:+ "() {")
        ∈ chunks (java_getters Table_cls).
Proof. split; [exact Table_ok | apply (getField_dispatch_targets Table_cls), Table_ok]. Defined.

(** The interior capital of partitionColumn is lost, and a name that keeps
    it is not the capitalization. *)
Example capitalized_mixed_case : capitalized "partitionColumn" "Partitioncolumn".
Proof. apply (capitalize_capitalized "partitionColumn"). Qed.

Example capitalized_keeps_no_capital : ¬ capitalized "partitionColumn" "PartitionColumn".
Proof.
  intros H. by pose proof (capitalized_unique _ _ _ H capitalized_mixed_case).
Qed.

Example getter_name_mixed_case :
  getter_name (mkField "partitionColumn" "Column?" None) = "getPartitioncolumn".
Proof. reflexivity. Qed.

(** ** set *)

Lemma java_set_text (cls : Class) :
  class_ok cls → java_set cls = (set_text cls, Ok ()).
Proof.
  intros Hok. unfold java_set.
  rewrite (for_each_ok _ _ set_case); [reflexivity|].
  intros f Hf. classify_field Hok Hf k Hk.
  unfold set_case, collection_field, reference_field, java_type_of, kind_of. rewrite Hk.
  destruct k as [[]|t|t]; reflexivity.
Qed.

(** C5. For a class whose fields all classify, the emitted set(field,
    value) is a switch with one case per non-collection field, in
    descriptor order, and none for a collection: an int field is assigned
    Integer.parseInt(value), a bool field Boolean.parseBoolean(value); a
    string field trims the value, turns a value that starts with null into
    null and otherwise asserts the quote at both ends and strips it; a
    reference field trims the value, turns a value that starts with null
    into null and passes the result to setUnresolved; the default case
    throws the "Unknown field" exception. *)
Theorem set_coercions (cls : Class) :
  class_ok cls → java_set cls = (set_text cls, Ok ()).
Proof. apply java_set_text. Qed.

Lemma set_coercions_Table :
  class_ok Table_cls ∧ java_set Table_cls = (set_text Table_cls, Ok ()).
Proof. split; [exact Table_ok | apply (set_coercions Table_cls), Table_ok]. Defined.

(** ** equals *)

Lemma java_equals_text (cls : Class) :
  class_ok cls → java_equals cls = (equals_text cls, Ok ()).
Proof.
  intros Hok. unfold java_equals.
  rewrite (for_each_ok _ _ equals_compare); [reflexivity|].
  intros f Hf. classify_field Hok Hf k Hk. rewrite lift_ok_bind.
  unfold equals_compare. by case_bool_decide.
Qed.

Lemma collection_java_type (f : Field) :
  collection_field f →
  ∃ t, java_type_of f = "CatalogMap<" +:+ t +:+ ">".
Proof.
  unfold collection_field, java_type_of. destruct (kind_of f) as [[s|t|t]|]; try done.
  intros _. by eexists.
Qed.

Lemma collection_compared_deeply (f : Field) :
  collection_field f →
  equals_compare f = [compare_null (field_name f); compare_equals (field_name f)].
Proof.
  intros [t Ht]%collection_java_type. unfold equals_compare. by rewrite Ht.
Qed.

Lemma collection_comparison_emitted (cls : Class) (f : Field) :
  class_ok cls → f ∈ cls_fields cls → collection_field f →
  compare_null (field_name f) ∈ chunks (java_equals cls) ∧
  compare_equals (field_name f) ∈ chunks (java_equals cls).
Proof.
  intros Hok Hf Hc. pose proof (collection_compared_deeply f Hc) as He.
  rewrite java_equals_text by done. unfold chunks, equals_text. cbn [fst].
  split; (apply elem_of_app; right; apply elem_of_app; left;
          apply (elem_of_bind_intro _ _ f); [done|]; rewrite He; repeat constructor).
Qed.

(** C1, as amended. For a class whose fields all classify, the emitted
    equals compares every field, in descriptor order: by value when its Java
    type is written int or boolean, by null test followed by equals
    otherwise. A Collection field is compared like the others, through the
    equals of its child container: the comparison is deep, as the comment
    emitted above it says. *)
Theorem equals_compares_collections (cls : Class) :
  class_ok cls →
  java_equals cls = (equals_text cls, Ok ()) ∧
  ∀ f, f ∈ cls_fields cls → collection_field f →
    equals_compare f = [compare_null (field_name f); compare_equals (field_name f)] ∧
    compare_null (field_name f) ∈ chunks (java_equals cls) ∧
    compare_equals (field_name f) ∈ chunks (java_equals cls).
Proof.
  intros Hok. split; [by apply java_equals_text|].
  intros f Hf Hc. split; [by apply collection_compared_deeply|].
  by apply collection_comparison_emitted.
Qed.

Lemma equals_compares_collections_Table :
  class_ok Table_cls ∧
  java_equals Table_cls = (equals_text Table_cls, Ok ()) ∧
  ∀ f, f ∈ cls_fields Table_cls → collection_field f →
    equals_compare f = [compare_null (field_name f); compare_equals (field_name f)] ∧
    compare_null (field_name f) ∈ chunks (java_equals Table_cls) ∧
    compare_equals (field_name f) ∈ chunks (java_equals Table_cls).
Proof. split; [exact Table_ok | apply (equals_compares_collections Table_cls), Table_ok]. Defined.

(** The table of the end-to-end scenario has the collection [columns], and
    its equals compares it. *)
Lemma equals_compares_columns : ¬ equals_skips_collections.
Proof.
  intros H.
  apply (H Table_cls (mkField "columns" "Column*" (Some "The columns of the table")) Table_ok).
  - repeat constructor.
  - done.
  - apply (collection_comparison_emitted Table_cls); [exact Table_ok|repeat constructor|done].
Qed.

(** ** copyFields *)

Lemma java_copyFields_text (cls : Class) :
  class_ok cls → java_copyFields cls = (copyFields_text cls copy_statement, Ok ()).
Proof.
  intros Hok. unfold java_copyFields, copyFields_text.
  rewrite (for_each_ok _ _ copy_statement).
  - by case_bool_decide.
  - intros f Hf. classify_field Hok Hf k Hk. rewrite lift_ok_bind.
    unfold copy_statement. case_bool_decide; [done|].
    destruct (reference_field f); [done|]. rewrite lift_ok_bind.
    by destruct (collection_field f).
Qed.

Lemma copy_statement_by_kind (f : Field) :
  reference_named_apart f → copy_statement f = copy_by_kind f.
Proof.
  unfold reference_named_apart, copy_statement, copy_by_kind, java_type_of,
    reference_field, collection_field.
  destruct (kind_of f) as [[[]|t|t]|]; simpl; intros Hn; try done.
  by rewrite bool_decide_eq_false_2 by (by apply Hn).
Qed.

Lemma copy_statements_by_kind (l : list Field) :
  Forall reference_named_apart l → l ≫= copy_statement = l ≫= copy_by_kind.
Proof.
  induction 1 as [|f r Hf Hr IH]; [done|]. cbn [mbind list_bind].
  rewrite (copy_statement_by_kind f Hf). f_equal. apply IH.
Qed.

(** Apart from references to a class named int, boolean or String, the
    emitted copyFields is the one the specification describes: a plain
    assignment for a scalar, the copy of the unresolved path for a
    reference, copyFrom on the child container for a collection. *)
Lemma copyFields_by_kind (cls : Class) :
  class_ok cls → Forall reference_named_apart (cls_fields cls) →
  java_copyFields cls = (copyFields_text cls copy_by_kind, Ok ()).
Proof.
  intros Hok Hn. rewrite java_copyFields_text by done. unfold copyFields_text.
  by rewrite (copy_statements_by_kind _ Hn).
Qed.

(** A reference to a class named String. The field [label] is a reference
    (its token ends with the reference marker, and set and the typed setter
    treat it as one), and copyFields copies it by plain assignment and not
    through setUnresolved and getPath: the test on the written Java type
    comes first and the target class is named String. *)
Lemma copyFields_reference_to_String :
  class_ok Label_holder ∧
  kind_of (mkField "label" "String?" None) = Some (Reference "String") ∧
  java_copyFields Label_holder
    = ([ln "    @Override"; ln "    void copyFields(CatalogType obj) {";
        ln "        // this is safe from the caller";
        ln ("        Holder other = (Holder) obj;" +:+ nl);
        copy_plain "label";
        ln ("    }" +:+ nl)], Ok ()) ∧
  (copy_path "label" ∉ chunks (java_copyFields Label_holder)) ∧
  set_case (mkField "label" "String?" None)
    = [ln ("        case " +:+ q "label" +:+ ":");
       ln "            value = value.trim();";
       ln ("            if (value.startsWith(" +:+ q "null" +:+ ")) value = null;");
       ln ("            assert((value == null) || value.startsWith(" +:+ q "/" +:+ "));");
       ln "            m_label.setUnresolved(value);";
       ln "            break;"].
Proof.
  split; [repeat constructor; by eexists|]. split; [reflexivity|].
  split; [reflexivity|]. split; [|reflexivity].
  by apply (bool_decide_eq_false_1
              (copy_path "label" ∈ chunks (java_copyFields Label_holder))).
Qed.

Lemma Label_holder_ok : class_ok Label_holder.
Proof. repeat constructor; by eexists. Qed.

(** The declaration of the field [label]: a plain String member, which
    the plain assignment of copyFields fits. *)
Example Label_holder_declared :
  field_decl (mkField "label" "String?" None)
  = [ln "    String m_label = new String();"].
Proof. reflexivity. Qed.

(** copyFields does not follow the kind alone: the reference of
    [Label_holder] is copied by plain assignment. *)
Lemma copyFields_not_by_kind_alone : ¬ copyFields_follows_kind.
Proof.
  intros H. specialize (H Label_holder Label_holder_ok).
  vm_compute in H. discriminate H.
Qed.

(** C8, as amended. For a class whose fields all classify, copyFields
    emits one statement per field, in descriptor order, chosen by the
    written Java type first and by the marker after: a plain assignment for
    every Scalar field and for a Reference to a class named int, boolean or
    String; the copy of the unresolved path (setUnresolved of the source's
    getPath()) for every other Reference; copyFrom on the child container
    for a Collection. *)
Theorem copyFields_by_written_type (cls : Class) :
  class_ok cls →
  java_copyFields cls = (copyFields_text cls copy_statement, Ok ()) ∧
  ∀ f, f ∈ cls_fields cls →
    match kind_of f with
    | Some (Scalar _) => copy_statement f = [copy_plain (field_name f)]
    | Some (Reference t) =>
        copy_statement f =
          if bool_decide (rstrip "?" t ∈ (["int"; "boolean"; "String"] : list string))
          then [copy_plain (field_name f)]
          else [copy_path (field_name f)]
    | Some (Collection t) => copy_statement f = [copy_children (field_name f)]
    | None => False
    end.
Proof.
  intros Hok. split; [by apply java_copyFields_text|].
  intros f Hf. classify_field Hok Hf k Hk.
  unfold copy_statement, java_type_of, reference_field, collection_field, kind_of.
  rewrite Hk. destruct k as [[]|t|t]; reflexivity.
Qed.

Lemma copyFields_by_written_type_Table :
  class_ok Table_cls ∧
  java_copyFields Table_cls = (copyFields_text Table_cls copy_statement, Ok ()) ∧
  ∀ f, f ∈ cls_fields Table_cls →
    match kind_of f with
    | Some (Scalar _) => copy_statement f = [copy_plain (field_name f)]
    | Some (Reference t) =>
        copy_statement f =
          if bool_decide (rstrip "?" t ∈ (["int"; "boolean"; "String"] : list string))
          then [copy_plain (field_name f)]
          else [copy_path (field_name f)]
    | Some (Collection t) => copy_statement f = [copy_children (field_name f)]
    | None => False
    end.
Proof. split; [exact Table_ok | apply (copyFields_by_written_type Table_cls), Table_ok]. Defined.

(** ** update *)

Lemma cpptypify_field (f : Field) (k : FieldKind) :
  kind_of f = Some k → cpptypify (field_type f) = Ok (cpp_render (strip_more k)).
Proof. apply cpptypify_classified. Qed.

(** For a class whose fields all classify, the emitted update() is one
    assignment per non-collection field, in descriptor order, that copies a
    member of the field's entry in the generic value table: typeValue for a
    reference, strValue.c_str() for a string, intValue for an int and for a
    bool alike. The text of a value is parsed where the table is filled, in
    the hand-written base class of the manual backend, not in update(). *)
Theorem update_reads_typed_members (cls : Class) :
  class_ok cls → cpp_update cls = (update_text cls, Ok ()).
Proof.
  intros Hok. unfold cpp_update.
  rewrite (for_each_ok _ _ update_statement); [reflexivity|].
  intros f Hf. classify_field Hok Hf k Hk. rewrite (cpptypify_field _ _ Hk).
  unfold update_statement, collection_field, reference_field, kind_of. rewrite Hk.
  destruct k as [[]|t|t]; reflexivity.
Qed.

Lemma update_reads_typed_members_Table :
  class_ok Table_cls ∧ cpp_update Table_cls = (update_text Table_cls, Ok ()).
Proof. split; [exact Table_ok | apply (update_reads_typed_members Table_cls), Table_ok]. Defined.

Example update_of_int_field :
  update_of (mkField "x" "int" None)
  = [ln "void C::update() {"; ln ("    m_x = m_fields[" +:+ q "x" +:+ "].intValue;"); ln ("}" +:+ nl)].
Proof. reflexivity. Qed.

(** ** addChild, removeChild and the registration of the collections *)

Lemma comprehension_star (e : Field → string) (cls : Class) :
  class_ok cls →
  comprehension is_star e (cls_fields cls)
  = Ok (e <$> filter (λ f, collection_field f) (cls_fields cls)).
Proof.
  unfold class_ok. induction 1 as [|f r Hf Hr IH]; [done|].
  destruct Hf as [k Hk]. cbn [comprehension]. rewrite IH.
  pose proof (last_is_star_field f k Hk) as Hs. unfold last_is in Hs.
  destruct (last_char (field_type f)) as [c|]; [|done].
  injection Hs as Hs. unfold is_star. rewrite Hs.
  destruct (collection_field f) eqn:E.
  - rewrite filter_cons_True by (by rewrite E). done.
  - rewrite filter_cons_False; [done|]. rewrite E. by intros [].
Qed.

Lemma cpp_addChild_text (cls : Class) :
  class_ok cls → cpp_addChild cls = (addChild_text cls, Ok ()).
Proof.
  intros Hok. unfold cpp_addChild.
  rewrite (for_each_ok _ _ addChild_block); [reflexivity|].
  intros f Hf. classify_field Hok Hf k Hk. unfold addChild_block.
  by destruct (collection_field f).
Qed.

Lemma cpp_removeChild_text (cls : Class) :
  class_ok cls → cpp_removeChild cls = (removeChild_text cls, Ok ()).
Proof.
  intros Hok. unfold cpp_removeChild.
  rewrite (for_each_ok _ _ removeChild_block); [reflexivity|].
  intros f Hf. classify_field Hok Hf k Hk. unfold removeChild_block.
  by destruct (collection_field f).
Qed.

Lemma cpp_constructor_text (cls : Class) :
  class_ok cls → cpp_constructor cls = (constructor_text cls, Ok ()).
Proof.
  intros Hok. unfold cpp_constructor. rewrite !(comprehension_star _ _ Hok).
  rewrite (for_each_ok _ _ register_statement).
  - unfold constructor_text.
    by destruct (filter (λ f, collection_field f) (cls_fields cls)).
  - intros f Hf. classify_field Hok Hf k Hk. rewrite (cpptypify_field _ _ Hk).
    unfold register_statement. by destruct (collection_field f).
Qed.

(** C9. For a class whose fields all classify, the emitted addChild has,
    for each Collection field in descriptor order, a block guarded by the
    collection's name that looks the child up, returns NULL when it exists
    and otherwise returns what the container's add returns; it ends with
    return NULL. The emitted removeChild starts with the assertion that the
    collection name is a key of m_childCollections, in which the emitted
    constructor enters exactly the Collection fields; it then has, for each
    Collection field, a guarded block returning what the container's remove
    returns, a boolean, and ends with return false. *)
Theorem children_dispatch (cls : Class) :
  class_ok cls →
  cpp_addChild cls = (addChild_text cls, Ok ()) ∧
  cpp_removeChild cls = (removeChild_text cls, Ok ()) ∧
  cpp_constructor cls = (constructor_text cls, Ok ()).
Proof.
  intros Hok.
  split; [by apply cpp_addChild_text|].
  split; [by apply cpp_removeChild_text|by apply cpp_constructor_text].
Qed.

Lemma children_dispatch_Table :
  class_ok Table_cls ∧
  cpp_addChild Table_cls = (addChild_text Table_cls, Ok ()) ∧
  cpp_removeChild Table_cls = (removeChild_text Table_cls, Ok ()) ∧
  cpp_constructor Table_cls = (constructor_text Table_cls, Ok ()).
Proof. split; [exact Table_ok | apply (children_dispatch Table_cls), Table_ok]. Defined.

Example Table_addChild :
  chunks (cpp_addChild Table_cls)
  = [ln "CatalogType * Table::addChild(const std::string &collectionName, const std::string &childName) {";
     ln ("    if (collectionName.compare(" +:+ q "columns" +:+ ") == 0) {");
     ln "        CatalogType *exists = m_columns.get(childName);";
     ln ("        if (exists)" +:+ nl +:+ "            return NULL;");
     ln ("        return m_columns.add(childName);" +:+ nl +:+ "    }");
     ln ("    return NULL;" +:+ nl +:+ "}" +:+ nl)].
Proof. reflexivity. Qed.

Example Table_removeChild :
  chunks (cpp_removeChild Table_cls)
  = [ln "bool Table::removeChild(const std::string &collectionName, const std::string &childName) {";
     ln "    assert (m_childCollections.find(collectionName) != m_childCollections.end());";
     ln ("    if (collectionName.compare(" +:+ q "columns" +:+ ") == 0) {");
     ln "        return m_columns.remove(childName);";
     ln "    }";
     ln "    return false;";
     ln ("}" +:+ nl)].
Proof. reflexivity. Qed.

(** ** The forward declarations of the manual backend *)

Lemma scalar_no_marker (x : string) (k : ScalarKind) (c : ascii) :
  scalar_of x = Some k → last_char x = Some c → c ≠ "*"%char ∧ c ≠ "?"%char.
Proof.
  intros Hs%scalar_of_Some. destruct k; subst x; by intros [= <-].
Qed.

Lemma target_of_marker (f : Field) :
  target_of f =
    match last_char (field_type f) with
    | Some c =>
        if bool_decide (c = "*"%char) || bool_decide (c = "?"%char)
        then Some (drop_last (field_type f)) else None
    | None => None
    end.
Proof.
  unfold target_of, kind_of, spec_classify.
  destruct (scalar_of (field_type f)) as [s|] eqn:Hs.
  - destruct (last_char (field_type f)) as [c|] eqn:Hc; [|done].
    destruct (scalar_no_marker _ _ _ Hs Hc) as [H1 H2].
    by rewrite !bool_decide_eq_false_2.
  - destruct (last_char (field_type f)) as [c|]; [|done].
    destruct (decide (c = "*"%char)) as [->|H1]; [done|].
    rewrite (bool_decide_eq_false_2 _ H1).
    destruct (decide (c = "?"%char)) as [->|H2]; [done|].
    by rewrite (bool_decide_eq_false_2 _ H2).
Qed.

Lemma collect_referenced_targets (l : list Field) (acc : list string) :
  Forall typed l →
  collect_referenced l acc = Ok (foldl add_distinct acc (omap target_of l)).
Proof.
  intros Hl. revert acc. induction Hl as [|f r Hf Hr IH]; intros acc; [done|].
  cbn [collect_referenced omap list_omap]. rewrite target_of_marker.
  destruct (last_char (field_type f)) as [c|] eqn:Hc.
  - destruct (bool_decide (c = "*"%char) || bool_decide (c = "?"%char)).
    + cbn [foldl]. unfold add_distinct at 2. case_bool_decide; apply IH.
    + apply IH.
  - by apply last_char_None in Hc.
Qed.

Lemma add_distinct_elem (acc : list string) (t n : string) :
  n ∈ add_distinct acc t ↔ n ∈ acc ∨ n = t.
Proof.
  unfold add_distinct. case_bool_decide.
  - split; [tauto|]. by intros [?| ->].
  - rewrite elem_of_app, list_elem_of_singleton. done.
Qed.

Lemma add_distinct_NoDup (acc : list string) (t : string) :
  NoDup acc → NoDup (add_distinct acc t).
Proof.
  intros Hn. unfold add_distinct. case_bool_decide; [done|].
  apply NoDup_app. split; [done|]. split; [|apply NoDup_singleton].
  intros x Hx Hx'. apply list_elem_of_singleton in Hx'. by subst.
Qed.

Lemma foldl_add_distinct_elem (ts acc : list string) (n : string) :
  n ∈ foldl add_distinct acc ts ↔ n ∈ acc ∨ n ∈ ts.
Proof.
  revert acc. induction ts as [|t r IH]; intros acc; cbn [foldl].
  - rewrite elem_of_nil. tauto.
  - rewrite IH, add_distinct_elem, elem_of_cons. tauto.
Qed.

Lemma foldl_add_distinct_NoDup (ts acc : list string) :
  NoDup acc → NoDup (foldl add_distinct acc ts).
Proof.
  revert acc. induction ts as [|t r IH]; intros acc Hn; cbn [foldl]; [done|].
  by apply IH, add_distinct_NoDup.
Qed.

Lemma remove_first_elem (x n : string) (l : list string) :
  NoDup l → n ∈ remove_first x l ↔ n ∈ l ∧ n ≠ x.
Proof.
  induction 1 as [|y r Hy Hr IH]; cbn [remove_first].
  - rewrite elem_of_nil. tauto.
  - case_decide as Hxy.
    + subst y. rewrite elem_of_cons. split; [|intros [[->|?] ?]; done].
      intros Hn. split; [by right|]. by intros ->.
    + rewrite !elem_of_cons, IH. intuition congruence.
Qed.


Lemma elem_of_omap_target (l : list Field) (n : string) :
  n ∈ omap target_of l ↔ ∃ f, f ∈ l ∧ target_of f = Some n.
Proof. apply list_elem_of_omap. Qed.

Lemma cpp_forward_decls_text (l : list string) :
  cpp_forward_decls l = (forward_decl <$> l, Ok ()).
Proof.
  unfold cpp_forward_decls. rewrite (for_each_ok _ _ (λ n, [forward_decl n])); [|done].
  f_equal.
Qed.

Example Node_referenced : referencedClasses Node_cls = Ok ["Table"].
Proof. reflexivity. Qed.

(** ** The whole file of a class *)

Section Run.

Variable gpl_header auto_gen_warning : string.
Variable dict_keys : list string → list string.

Lemma java_header_ok (package : string) (cls : Class) :
  java_header gpl_header auto_gen_warning package cls
  = (java_header_text gpl_header auto_gen_warning package cls, Ok ()).
Proof. unfold java_header, java_header_text. by destruct (cls_comment cls). Qed.

Lemma java_field_decl (f : Field) :
  field_ok f →
  (ftype ← lift (javatypify (field_type f));
   let fname := field_name f in
   if decide (ftype = "String") then
     write ["    String m_" +:+ fname +:+ " = new String();"]
   else
     isref ← lift (last_is (field_type f) "?");
     if isref : bool then
       write ["    Catalog.CatalogReference<" +:+ ftype +:+ "> m_" +:+ fname
              +:+ " = new CatalogReference<>();"]
     else
       write ["    " +:+ ftype +:+ " m_" +:+ fname +:+ ";"])
  = (field_decl f, Ok ()).
Proof.
  intros [k Hk]%field_ok_kind.
  rewrite (last_is_query_field _ _ Hk), (javatypify_field _ _ Hk), lift_ok_bind.
  unfold field_decl. case_decide; [done|]. by destruct (reference_field f).
Qed.

Lemma java_fields_text (cls : Class) :
  class_ok cls → java_fields cls = ((cls_fields cls ≫= field_decl) ++ [ln ""], Ok ()).
Proof.
  intros Hok. unfold java_fields. rewrite (for_each_ok _ _ field_decl); [done|].
  intros f Hf. apply java_field_decl. unfold class_ok in Hok.
  rewrite Forall_forall in Hok. by apply Hok.
Qed.

(** The fields loop stops at the first field that does not classify. *)
Lemma java_fields_raise (cls : Class) (fs1 fs2 : list Field) (f : Field) (e : exn) :
  cls_fields cls = fs1 ++ f :: fs2 → Forall field_ok fs1 →
  javatypify (field_type f) = Raise e →
  java_fields cls = (fs1 ≫= field_decl, Raise e).
Proof.
  intros Hfs Hok He. unfold java_fields. rewrite Hfs.
  rewrite (for_each_raise _ _ _ _ field_decl [] e).
  - by rewrite app_nil_r.
  - intros g Hg. apply java_field_decl. rewrite Forall_forall in Hok. by apply Hok.
  - by rewrite He.
Qed.

Lemma java_setBaseValues_text (cls : Class) :
  class_ok cls → java_setBaseValues cls = (setBaseValues_text cls, Ok ()).
Proof.
  intros Hok. unfold java_setBaseValues.
  rewrite (for_each_ok _ _ base_value); [reflexivity|].
  intros f Hf. classify_field Hok Hf k Hk. unfold base_value.
  by destruct (collection_field f).
Qed.

Lemma java_setters_text (cls : Class) :
  class_ok cls → java_setters cls = (cls_fields cls ≫= setter_method, Ok ()).
Proof.
  intros Hok. unfold java_setters. apply for_each_ok.
  intros f Hf. classify_field Hok Hf k Hk. unfold setter_method.
  destruct (collection_field f); [done|].
  destruct (field_comment f), (reference_field f); reflexivity.
Qed.

Lemma genjava_class_text (package : string) (cls : Class) :
  class_ok cls →
  genjava_class gpl_header auto_gen_warning package cls
  = (class_text gpl_header auto_gen_warning package cls, Ok ()).
Proof.
  intros Hok. unfold genjava_class.
  rewrite (java_getFields_text _ Hok), (java_getChildCollections_text _ Hok).
  rewrite java_header_ok, (java_fields_text _ Hok), (java_setBaseValues_text _ Hok),
    java_getField_text, (java_getters_text _ Hok), (java_setters_text _ Hok),
    (java_set_text _ Hok), (java_copyFields_text _ Hok), (java_equals_text _ Hok).
  reflexivity.
Qed.

Lemma genjava_class_raise (package : string) (cls : Class)
    (fs1 fs2 : list Field) (f : Field) (e : exn) :
  cls_fields cls = fs1 ++ f :: fs2 → Forall field_ok fs1 →
  javatypify (field_type f) = Raise e →
  genjava_class gpl_header auto_gen_warning package cls
  = (java_header_text gpl_header auto_gen_warning package cls ++ (fs1 ≫= field_decl),
     Raise e).
Proof.
  intros Hfs Hok He. unfold genjava_class.
  rewrite java_header_ok, (java_fields_raise _ _ _ _ _ Hfs Hok He). reflexivity.
Qed.

End Run.

(** ** The run *)

Lemma first_unclassified (l : list Field) :
  ¬ Forall field_ok l →
  ∃ l1 x l2, l = l1 ++ x :: l2 ∧ Forall field_ok l1 ∧ ¬ field_ok x.
Proof.
  induction l as [|y r IH]; intros Hn.
  - destruct Hn. constructor.
  - destruct (decide (field_ok y)) as [Hy|Hy].
    + destruct IH as (l1 & x & l2 & -> & H1 & Hx).
      { intros Hr. apply Hn. by constructor. }
      exists (y :: l1), x, l2. split; [done|]. split; [by constructor|done].
    + exists [], y, r. split; [done|]. split; [constructor|done].
Qed.

Lemma first_bad_class (l : list Class) :
  ¬ Forall class_ok l →
  ∃ l1 c l2, l = l1 ++ c :: l2 ∧ Forall class_ok l1 ∧ ¬ class_ok c.
Proof.
  induction l as [|y r IH]; intros Hn.
  - destruct Hn. constructor.
  - destruct (decide (class_ok y)) as [Hy|Hy].
    + destruct IH as (l1 & x & l2 & -> & H1 & Hx).
      { intros Hr. apply Hn. by constructor. }
      exists (y :: l1), x, l2. split; [done|]. split; [by constructor|done].
    + exists [], y, r. split; [done|]. split; [constructor|done].
Qed.

Lemma javatypify_not_ok (f : Field) :
  ¬ field_ok f → ∃ e, javatypify (field_type f) = Raise e.
Proof.
  intros Hn. eexists. apply javatypify_unclassified.
  unfold field_ok in Hn. destruct (spec_classify (field_type f)); [|done].
  destruct Hn. by eexists.
Qed.

Section Driver.

Variable gpl_header auto_gen_warning : string.
Variable dict_keys : list string → list string.

Lemma gen_bind_ok {A B} (m : Gen A) (k : A → Gen B) (w w' : World) (a : A) :
  m w = (w', Ok a) → (m ≫= k) w = k a w'.
Proof. intros H. unfold mbind, Gen_bind. cbn zeta. by rewrite H. Qed.

Lemma gen_bind_raise {A B} (m : Gen A) (k : A → Gen B) (w w' : World) (e : exn) :
  m w = (w', Raise e) → (m ≫= k) w = (w', Raise e).
Proof. intros H. unfold mbind, Gen_bind. cbn zeta. by rewrite H. Qed.

Lemma java_body_raise (cls : Class) (w : World) (partial : list string) (e : exn) :
  genjava_class gpl_header auto_gen_warning javapkg cls = (partial, Raise e) →
  java_body gpl_header auto_gen_warning cls w
  = (mkWorld (cmds w) (<[java_path cls := partial]> (files w)), Raise e).
Proof. intros He. unfold java_body, to_file. by rewrite He. Qed.

Lemma java_body_ok (cls : Class) (w : World) :
  class_ok cls →
  java_body gpl_header auto_gen_warning cls w
  = (mkWorld (cmds w)
       (<[java_path cls := class_text gpl_header auto_gen_warning javapkg cls]> (files w)),
     Ok ()).
Proof.
  intros Hok. unfold java_body, to_file. by rewrite (genjava_class_text _ _ _ _ Hok).
Qed.

(** The loop over the classes stops at the first class with a field that
    does not classify; the files written so far stay, the file of that
    class among them. *)
Lemma java_loop_raise (pre post : list Class) (cls : Class) (w : World)
    (partial : list string) (e : exn) :
  Forall class_ok pre →
  genjava_class gpl_header auto_gen_warning javapkg cls = (partial, Raise e) →
  for_classes (pre ++ cls :: post) (java_body gpl_header auto_gen_warning) w
  = (mkWorld (cmds w)
       (<[java_path cls := partial]>
          (written_java gpl_header auto_gen_warning pre (files w))),
     Raise e).
Proof.
  intros Hpre He. revert w. induction Hpre as [|c r Hc Hr IH]; intros w.
  - cbn [app for_classes].
    by rewrite (gen_bind_raise _ _ _ _ _ (java_body_raise cls w partial e He)).
  - cbn [app for_classes].
    rewrite (gen_bind_ok _ _ _ _ _ (java_body_ok c w Hc)), IH. reflexivity.
Qed.

Lemma genjava_start (classes : list Class) :
  genjava gpl_header auto_gen_warning classes java_prepath java_postpath javapkg empty_world
  = for_classes classes (java_body gpl_header auto_gen_warning) (mkWorld java_setup_cmds ∅).
Proof. reflexivity. Qed.

(** The run when the first class with a field that does not classify is
    [cls], after the classes [pre]. *)
Lemma run_stops_at (pre post : list Class) (cls : Class)
    (fs1 fs2 : list Field) (f : Field) (e : exn) :
  Forall class_ok pre →
  cls_fields cls = fs1 ++ f :: fs2 → Forall field_ok fs1 →
  javatypify (field_type f) = Raise e →
  main gpl_header auto_gen_warning dict_keys (pre ++ cls :: post) empty_world
  = (mkWorld java_setup_cmds
       (<[java_path cls :=
            java_header_text gpl_header auto_gen_warning javapkg cls
              ++ (fs1 ≫= field_decl)]>
          (written_java gpl_header auto_gen_warning pre ∅)),
     Raise e).
Proof.
  intros Hpre Hfs Hok1 He.
  unfold main. apply gen_bind_raise. rewrite genjava_start.
  by rewrite (java_loop_raise pre post cls _ _ e Hpre
                (genjava_class_raise _ _ _ _ _ _ _ _ Hfs Hok1 He)).
Qed.

(** C3, as amended. A class list with a field that does not classify
    makes the run raise the exception of the first such field's token,
    while the managed backend writes the class of that field. By then the
    setup commands of the managed backend have been issued, the files of
    the classes before that class are written in full, and the file of
    that class holds its header and the declarations of the fields before
    the offending one. The manual backend is never started: none of its
    commands is issued and none of its files is written. *)
Theorem unrecognized_token_stops_run (classes : list Class) :
  ¬ Forall class_ok classes →
  ∃ (pre post : list Class) (cls : Class) (fs1 fs2 : list Field) (f : Field) (e : exn),
    classes = pre ++ cls :: post ∧ Forall class_ok pre ∧
    cls_fields cls = fs1 ++ f :: fs2 ∧ Forall field_ok fs1 ∧ ¬ field_ok f ∧
    javatypify (field_type f) = Raise e ∧
    main gpl_header auto_gen_warning dict_keys classes empty_world
    = (mkWorld java_setup_cmds
         (<[java_path cls :=
              java_header_text gpl_header auto_gen_warning javapkg cls
                ++ (fs1 ≫= field_decl)]>
            (written_java gpl_header auto_gen_warning pre ∅)),
       Raise e).
Proof.
  intros Hbad.
  destruct (first_bad_class _ Hbad) as (pre & cls & post & -> & Hpre & Hcls).
  destruct (first_unclassified _ Hcls) as (fs1 & f & fs2 & Hfs & Hok1 & Hf).
  destruct (javatypify_not_ok f Hf) as [e He].
  exists pre, post, cls, fs1, fs2, f, e. do 6 (split; [done|]).
  by apply (run_stops_at pre post cls fs1 fs2 f e).
Qed.

End Driver.

Lemma Broken_not_ok : ¬ class_ok Broken_cls.
Proof.
  intros H. unfold class_ok in H. cbn in H.
  apply Forall_cons in H as [_ H]. apply Forall_cons in H as [[k Hk] _]. discriminate Hk.
Qed.

Lemma Broken_run_not_ok : ¬ Forall class_ok [Column_cls; Broken_cls; Table_cls].
Proof.
  intros H. apply Forall_cons in H as [_ H]. apply Forall_cons in H as [H _].
  by apply Broken_not_ok.
Qed.

Lemma unrecognized_token_stops_run_Broken :
  ¬ Forall class_ok [Column_cls; Broken_cls; Table_cls] ∧
  ∃ (pre post : list Class) (cls : Class) (fs1 fs2 : list Field) (f : Field) (e : exn),
    [Column_cls; Broken_cls; Table_cls] = pre ++ cls :: post ∧ Forall class_ok pre ∧
    cls_fields cls = fs1 ++ f :: fs2 ∧ Forall field_ok fs1 ∧ ¬ field_ok f ∧
    javatypify (field_type f) = Raise e ∧
    main "GPL" "GENERATED" (λ l, l) [Column_cls; Broken_cls; Table_cls] empty_world
    = (mkWorld java_setup_cmds
         (<[java_path cls :=
              java_header_text "GPL" "GENERATED" javapkg cls ++ (fs1 ≫= field_decl)]>
            (written_java "GPL" "GENERATED" pre ∅)),
       Raise e).
Proof.
  split; [exact Broken_run_not_ok|].
  apply (unrecognized_token_stops_run "GPL" "GENERATED" (λ l, l)
           [Column_cls; Broken_cls; Table_cls]).
  exact Broken_run_not_ok.
Defined.

(** The run on the column class followed by the broken class leaves the
    file of the column class, and the beginning of the file of the broken
    class, behind. *)
Lemma partial_output_stays :
  ¬ no_partial_output "GPL" "GENERATED" (λ l, l).
Proof.
  intros H. specialize (H [Column_cls; Broken_cls]).
  assert (files (main "GPL" "GENERATED" (λ l, l) [Column_cls; Broken_cls] empty_world).1
            !! "out/javasrc/Broken.java"
          = Some [ln "GPL"; ln "GENERATED"; ln ("package org.voltdb.catalog;" +:+ nl);
                  ln ("public class Broken extends CatalogType {" +:+ nl);
                  ln "    int m_id;"]) as Hfile by (by vm_compute).
  rewrite H in Hfile; [by rewrite lookup_empty in Hfile|].
  intros Hall. apply Forall_cons in Hall as [_ Hall]. apply Forall_cons in Hall as [Hb _].
  by apply Broken_not_ok.
Qed.


(** ** The shape of a classified token *)

Lemma classify_shape (x : string) (k : FieldKind) :
  spec_classify x = Some k →
  match k with
  | Scalar KString => x = "string"
  | Scalar KInt => x = "int"
  | Scalar KBool => x = "bool"
  | Reference t => t = drop_last x ∧ last_char x = Some "?"%char ∧ scalar_of x = None
  | Collection t => t = drop_last x ∧ last_char x = Some "*"%char ∧ scalar_of x = None
  end.
Proof.
  unfold spec_classify. destruct (scalar_of x) as [s|] eqn:Hs.
  - intros [= <-]. apply scalar_of_Some in Hs. by destruct s.
  - destruct (last_char x) as [c|]; [|done].
    destruct (decide (c = "*"%char)) as [->|H1]; [by intros [= <-]|].
    destruct (decide (c = "?"%char)) as [->|H2]; [by intros [= <-]|done].
Qed.

Lemma not_string_token (x t : string) :
  spec_classify x = Some (Reference t) ∨ spec_classify x = Some (Collection t) →
  x ≠ "string".
Proof. intros [H|H] ->; discriminate H. Qed.

Lemma cpptypify_field_type (f : Field) (k : FieldKind) :
  kind_of f = Some k → cpptypify (field_type f) = Ok (cpp_type_of f).
Proof. intros Hk. unfold cpp_type_of. rewrite Hk. by apply cpptypify_classified. Qed.

Lemma class_ok_typed (cls : Class) : class_ok cls → Forall typed (cls_fields cls).
Proof.
  unfold class_ok. intros H. eapply Forall_impl; [exact H|].
  intros f [k Hk] Hempty. cbv beta in Hk. rewrite Hempty in Hk. discriminate Hk.
Qed.

(** Brings the facts on a field of a well-classified class into a goal on
    the manual backend. *)
Ltac classify_cpp_field Hok Hf k Hk :=
  destruct (class_ok_field _ _ Hok Hf) as [k Hk];
  rewrite ?(last_is_star_field _ _ Hk), ?(last_is_query_field _ _ Hk),
    ?(cpptypify_field_type _ _ Hk).

(** ** The sections of the manual backend *)

Lemma cpp_members_text (cls : Class) :
  class_ok cls → cpp_members cls = (cls_fields cls ≫= member_decl, Ok ()).
Proof.
  intros Hok. unfold cpp_members. apply for_each_ok.
  intros f Hf. classify_cpp_field Hok Hf k Hk. reflexivity.
Qed.

Lemma cpp_getter_decls_text (cls : Class) :
  class_ok cls → cpp_getter_decls cls = (cls_fields cls ≫= getter_decl, Ok ()).
Proof.
  intros Hok. unfold cpp_getter_decls. apply for_each_ok.
  intros f Hf. classify_cpp_field Hok Hf k Hk.
  pose proof (classify_shape _ _ Hk) as Hs.
  unfold getter_decl, getter_signature, collection_field, reference_field, kind_of.
  rewrite Hk. destruct k as [[]|t|t]; cbn in Hs.
  - rewrite Hs. by destruct (field_comment f).
  - rewrite Hs. by destruct (field_comment f).
  - rewrite Hs. by destruct (field_comment f).
  - destruct Hs as (-> & _ & _).
    destruct (decide (field_type f = "string")) as [He|_];
      [by apply (not_string_token _ (drop_last (field_type f))) in He; [|left]|].
    by destruct (field_comment f).
  - destruct Hs as (-> & _ & _).
    destruct (decide (field_type f = "string")) as [He|_];
      [by apply (not_string_token _ (drop_last (field_type f))) in He; [|right]|].
    by destruct (field_comment f).
Qed.

Lemma gencpp_header_text (gpl_header auto_gen_warning : string) (cls : Class)
    (referenced : list string) :
  class_ok cls →
  gencpp_header gpl_header auto_gen_warning cls referenced
  = (header_text gpl_header auto_gen_warning cls referenced, Ok ()).
Proof.
  intros Hok. unfold gencpp_header.
  rewrite cpp_forward_decls_text, (cpp_members_text _ Hok), (cpp_getter_decls_text _ Hok).
  unfold header_text. by destruct (cls_comment cls).
Qed.

Lemma comprehension_marker (e : Field → string) (cls : Class) :
  class_ok cls →
  comprehension is_marker e (cls_fields cls)
  = Ok (e <$> filter (λ f, marker_field f) (cls_fields cls)).
Proof.
  unfold class_ok. induction 1 as [|f r Hf Hr IH]; [done|].
  destruct Hf as [k Hk]. cbn [comprehension]. rewrite IH.
  pose proof (last_is_star_field f k Hk) as Hs. unfold last_is in Hs.
  pose proof (last_is_query_field f k Hk) as Hq. unfold last_is in Hq.
  destruct (last_char (field_type f)) as [c|]; [|done].
  injection Hs as Hs. injection Hq as Hq.
  assert (is_marker c = marker_field f) as ->.
  { unfold is_marker, marker_field, collection_field, reference_field, kind_of in *.
    rewrite Hk in Hs, Hq. rewrite Hk. cbn in Hs, Hq. cbn. rewrite <- Hs, <- Hq.
    destruct (decide (c = "*"%char)) as [->|H1]; [done|].
    destruct (decide (c = "?"%char)) as [->|H2]; [done|].
    rewrite !bool_decide_eq_false_2; [done..|].
    rewrite !elem_of_cons, elem_of_nil. tauto. }
  destruct (marker_field f) eqn:E.
  - rewrite filter_cons_True by (by rewrite E). done.
  - rewrite filter_cons_False; [done|]. rewrite E. by intros [].
Qed.

Lemma cpp_includes_text (dict_keys : list string → list string) (cls : Class) :
  class_ok cls → cpp_includes dict_keys cls = (includes_text dict_keys cls, Ok ()).
Proof.
  intros Hok. unfold cpp_includes. rewrite (comprehension_marker _ _ Hok).
  rewrite lift_ok_bind. cbv beta.
  rewrite (for_each_ok _ _ (λ hdr, [ln hdr])); [|done].
  unfold includes_text, include_of.
  set (keys := dict_keys _). assert ((keys ≫= λ hdr, [ln hdr]) = ln <$> keys) as Hk.
  { clearbody keys. induction keys as [|x r IH]; [done|].
    cbn [mbind list_bind fmap list_fmap]. by f_equal. }
  by rewrite <- Hk.
Qed.

Lemma cpp_destructor_text (cls : Class) :
  class_ok cls → cpp_destructor cls = (destructor_text cls, Ok ()).
Proof.
  intros Hok. unfold cpp_destructor.
  rewrite (for_each_ok _ _ destructor_block); [reflexivity|].
  intros f Hf. classify_cpp_field Hok Hf k Hk. unfold destructor_block.
  by destruct (collection_field f).
Qed.

Lemma cpp_getChild_text (cls : Class) :
  class_ok cls → cpp_getChild cls = (getChild_text cls, Ok ()).
Proof.
  intros Hok. unfold cpp_getChild.
  rewrite (for_each_ok _ _ getChild_block); [reflexivity|].
  intros f Hf. classify_cpp_field Hok Hf k Hk. unfold getChild_block.
  by destruct (collection_field f).
Qed.

Lemma cpp_update_text (cls : Class) :
  class_ok cls → cpp_update cls = (update_text cls, Ok ()).
Proof.
  intros Hok. unfold cpp_update.
  rewrite (for_each_ok _ _ update_statement); [reflexivity|].
  intros f Hf. classify_field Hok Hf k Hk. rewrite (cpptypify_field _ _ Hk).
  unfold update_statement, collection_field, reference_field, kind_of. rewrite Hk.
  destruct k as [[]|t|t]; reflexivity.
Qed.

Lemma cpp_getters_text (cls : Class) :
  class_ok cls → cpp_getters cls = (cls_fields cls ≫= getter_def (cls_name cls), Ok ()).
Proof.
  intros Hok. unfold cpp_getters. apply for_each_ok.
  intros f Hf. classify_cpp_field Hok Hf k Hk.
  pose proof (classify_shape _ _ Hk) as Hs.
  unfold getter_def, collection_field, reference_field, kind_of.
  rewrite Hk. destruct k as [[]|t|t]; cbn in Hs.
  - by rewrite Hs.
  - by rewrite Hs.
  - by rewrite Hs.
  - destruct Hs as (-> & _ & _).
    by destruct (decide (field_type f = "string")) as [He|_];
      [apply (not_string_token _ (drop_last (field_type f))) in He; [|left]|].
  - destruct Hs as (-> & _ & _).
    by destruct (decide (field_type f = "string")) as [He|_];
      [apply (not_string_token _ (drop_last (field_type f))) in He; [|right]|].
Qed.

Lemma gencpp_source_text (gpl_header auto_gen_warning : string)
    (dict_keys : list string → list string) (cls : Class) :
  class_ok cls →
  gencpp_source gpl_header auto_gen_warning dict_keys cls
  = (source_text gpl_header auto_gen_warning dict_keys cls, Ok ()).
Proof.
  intros Hok. unfold gencpp_source.
  rewrite (cpp_includes_text _ _ Hok), (cpp_constructor_text _ Hok),
    (cpp_destructor_text _ Hok), (cpp_update_text _ Hok), (cpp_addChild_text _ Hok),
    (cpp_getChild_text _ Hok), (cpp_removeChild_text _ Hok), (cpp_getters_text _ Hok).
  reflexivity.
Qed.

Lemma referencedClasses_names (cls : Class) :
  Forall typed (cls_fields cls) → referencedClasses cls = Ok (forward_names cls).
Proof.
  intros Ht. unfold referencedClasses, forward_names.
  rewrite (collect_referenced_targets _ _ Ht). cbn zeta. by case_bool_decide.
Qed.

(** ** The three rendering functions together *)

Lemma javaobjectify_classified (x : string) (k : FieldKind) :
  spec_classify x = Some k →
  javaobjectify x = Ok (match k with
                        | Scalar KInt => "Integer"
                        | Scalar KBool => "Boolean"
                        | _ => java_render (strip_more k)
                        end).
Proof.
  unfold spec_classify, javaobjectify. destruct (scalar_of x) as [s|] eqn:Hs.
  - intros [= <-]. apply scalar_of_Some in Hs. by destruct s; subst x.
  - apply scalar_of_None in Hs as (H1 & H2 & H3).
    rewrite !decide_False by done.
    destruct (last_char x) as [c|] eqn:Hc; [|done].
    repeat case_decide; intros [= <-]; subst c; simpl;
      by rewrite (rstrip_drop_last _ _ Hc).
Qed.

Lemma javaobjectify_unclassified (x : string) :
  spec_classify x = None →
  javaobjectify x = Raise (if decide (x = EmptyString) then IndexError
                           else Exception ("bad type: " +:+ x)).
Proof.
  unfold spec_classify, javaobjectify. destruct (scalar_of x) as [s|] eqn:Hs; [done|].
  apply scalar_of_None in Hs as (H1 & H2 & H3).
  rewrite !decide_False by done.
  destruct (last_char x) as [c|] eqn:Hc.
  - assert (x ≠ EmptyString) by (by intros ->).
    rewrite (decide_False (P := x = EmptyString)) by done.
    by repeat case_decide.
  - apply last_char_None in Hc as ->. done.
Qed.

(** The three rendering functions reject the same tokens, each with the
    same exception: IndexError for the empty token, "bad type" followed by
    the token for any other token that is no scalar and ends with no marker;
    on every other token all three return a type. *)
Theorem typify_raise_together (x : string) (e : exn) :
  (javatypify x = Raise e ↔ cpptypify x = Raise e) ∧
  (javatypify x = Raise e ↔ javaobjectify x = Raise e) ∧
  (javatypify x = Raise e ↔
     spec_classify x = None ∧
     e = if decide (x = EmptyString) then IndexError else Exception ("bad type: " +:+ x)).
Proof.
  destruct (spec_classify x) as [k|] eqn:Hk.
  - rewrite (javatypify_classified _ _ Hk), (cpptypify_classified _ _ Hk),
      (javaobjectify_classified _ _ Hk).
    split; [done|]. split; [done|]. split; [done|by intros [? _]].
  - rewrite (javatypify_unclassified _ Hk), (cpptypify_unclassified _ Hk),
      (javaobjectify_unclassified _ Hk).
    split; [done|]. split; [done|]. split; [intros [= <-]; by split|by intros [_ ->]].
Qed.

(** [javaobjectify] is [javatypify] with the two primitive types boxed:
    on every token other than int and bool the two return the same type or
    raise the same exception. *)
Theorem javaobjectify_boxes (x : string) :
  x ≠ "int" → x ≠ "bool" → javaobjectify x = javatypify x.
Proof.
  intros Hi Hb.
  unfold javaobjectify, javatypify. destruct (decide (x = "string")); [done|].
  destruct (decide (x = "int")); [done|]. by destruct (decide (x = "bool")).
Qed.

Lemma javaobjectify_boxes_collection :
  "Column*" ≠ "int" ∧ "Column*" ≠ "bool" ∧ javaobjectify "Column*" = javatypify "Column*".
Proof.
  split; [done|]. split; [done|]. by apply (javaobjectify_boxes "Column*").
Defined.

Example javaobjectify_int : javaobjectify "int" = Ok "Integer".
Proof. reflexivity. Qed.
Example javaobjectify_bool : javaobjectify "bool" = Ok "Boolean".
Proof. reflexivity. Qed.

Lemma rstrip_no_marker (m : ascii) (x : string) :
  last_char x ≠ Some m → rstrip m x = x.
Proof.
  induction x as [|c r IH]; [done|]. destruct r as [|d r'].
  - intros Hc. simpl. rewrite decide_False; [done|]. intros ->. by apply Hc.
  - intros Hl. change (last_char (String c (String d r'))) with (last_char (String d r')) in Hl.
    change (rstrip m (String c (String d r')))
      with (match rstrip m (String d r') with
            | EmptyString => if decide (c = m) then EmptyString else String c EmptyString
            | String e r2 => String c (String e r2)
            end).
    by rewrite (IH Hl).
Qed.

Lemma strip_more_single (k : FieldKind) : single_marker k → strip_more k = k.
Proof.
  destruct k as [s|t|t]; [done| |]; intros H; simpl; by rewrite rstrip_no_marker.
Qed.

(** On a token that classifies with a target that does not itself end
    with the marker (one trailing marker, not several), the rendering
    functions write exactly the target of the classification: the token
    without its last character. *)
Theorem typify_single_marker (x : string) (k : FieldKind) :
  spec_classify x = Some k → single_marker k →
  javatypify x = Ok (java_render k) ∧ cpptypify x = Ok (cpp_render k).
Proof.
  intros Hk Hs.
  rewrite (javatypify_classified _ _ Hk), (cpptypify_classified _ _ Hk).
  by rewrite (strip_more_single _ Hs).
Qed.

Lemma typify_single_marker_Column :
  spec_classify "Column*" = Some (Collection "Column") ∧
  single_marker (Collection "Column") ∧
  javatypify "Column*" = Ok (java_render (Collection "Column")) ∧
  cpptypify "Column*" = Ok (cpp_render (Collection "Column")).
Proof.
  split; [reflexivity|]. split; [done|].
  apply (typify_single_marker "Column*" (Collection "Column")); [reflexivity|done].
Defined.

(** ** The forward declarations of the header *)





(** The header of a class Node with a field of the token [Node**]: the
    member is a map of Node, the class itself, and the class declared ahead
    is the token without its last character. *)
Example Nested_header :
  referencedClasses Nested_cls = Ok ["Node*"] ∧
  cpp_forward_decls ["Node*"] = ([ln "class Node*;"], Ok ()) ∧
  member_decl (mkField "children" "Node**" None) = [ln "    CatalogMap<Node> m_children;"].
Proof. by repeat split. Qed.





(** ** Accessor names and letter case *)






(** ** Sections that look at one family of fields only *)

Lemma bind_filter {A B} (p : A → bool) (g : A → list B) (l : list A) :
  (∀ x, x ∈ l → p x = false → g x = []) →
  l ≫= g = filter (λ x, p x) l ≫= g.
Proof.
  induction l as [|x r IH]; intros Hg; [done|].
  cbn [mbind list_bind]. fold (r ≫= g). rewrite IH by (intros y Hy; apply Hg; by right).
  destruct (p x) eqn:E.
  - rewrite filter_cons_True by (by rewrite E). done.
  - rewrite filter_cons_False by (rewrite E; by intros []).
    by rewrite (Hg x (list_elem_of_here _ _) E).
Qed.

Lemma filter_twice {A} (p : A → bool) (l : list A) :
  filter (λ x, p x) (filter (λ x, p x) l) = filter (λ x, p x) l.
Proof.
  induction l as [|x r IH]; [done|]. destruct (p x) eqn:E.
  - rewrite !filter_cons_True by (by rewrite E). by rewrite IH.
  - by rewrite !filter_cons_False by (rewrite E; by intros []).
Qed.

Lemma plain_part_ok (cls : Class) : class_ok cls → class_ok (plain_part cls).
Proof.
  unfold class_ok, plain_part. cbn. rewrite !Forall_forall.
  intros H f [_ Hf]%list_elem_of_filter. by apply H.
Qed.

Lemma collection_part_ok (cls : Class) : class_ok cls → class_ok (collection_part cls).
Proof.
  unfold class_ok, collection_part. cbn. rewrite !Forall_forall.
  intros H f [_ Hf]%list_elem_of_filter. by apply H.
Qed.

Lemma not_plain_collection (cls : Class) (f : Field) :
  class_ok cls → f ∈ cls_fields cls → plain_field f = false → collection_field f = true.
Proof.
  intros Hok Hf. destruct (class_ok_field _ _ Hok Hf) as [k Hk].
  unfold plain_field, collection_field, kind_of. rewrite Hk. simpl.
  by destruct (is_collection k).
Qed.

(** The sections on the Scalar and Reference fields do not see the
    collections: for a class whose fields all classify, getFields, the typed
    setters, set and update are emitted as for the class without its
    Collection fields. *)
Theorem collections_ignored (cls : Class) :
  class_ok cls →
  java_getFields cls = java_getFields (plain_part cls) ∧
  java_setters cls = java_setters (plain_part cls) ∧
  java_set cls = java_set (plain_part cls) ∧
  cpp_update cls = cpp_update (plain_part cls).
Proof.
  intros Hok. pose proof (plain_part_ok _ Hok) as Hp.
  rewrite (java_getFields_text _ Hok), (java_getFields_text _ Hp),
    (java_setters_text _ Hok), (java_setters_text _ Hp),
    (java_set_text _ Hok), (java_set_text _ Hp),
    (cpp_update_text _ Hok), (cpp_update_text _ Hp).
  unfold set_text, update_text, plain_part. cbn [cls_fields cls_name].
  rewrite filter_twice.
  rewrite <- !(bind_filter (λ f, plain_field f)); [done|..];
    intros f Hf Hn; pose proof (not_plain_collection _ _ Hok Hf Hn) as Hc;
    unfold update_statement, set_case, setter_method, collection_field in *;
    destruct (kind_of f) as [[]|]; done.
Qed.

Lemma collections_ignored_Table :
  class_ok Table_cls ∧
  java_getFields Table_cls = java_getFields (plain_part Table_cls) ∧
  java_setters Table_cls = java_setters (plain_part Table_cls) ∧
  java_set Table_cls = java_set (plain_part Table_cls) ∧
  cpp_update Table_cls = cpp_update (plain_part Table_cls).
Proof. split; [exact Table_ok | apply (collections_ignored Table_cls), Table_ok]. Defined.

(** The sections on the child collections do not see the other fields:
    for a class whose fields all classify, setBaseValues,
    getChildCollections, the destructor, addChild, getChild and removeChild
    are emitted as for the class with its Collection fields only. *)
Theorem plain_fields_ignored (cls : Class) :
  class_ok cls →
  java_setBaseValues cls = java_setBaseValues (collection_part cls) ∧
  java_getChildCollections cls = java_getChildCollections (collection_part cls) ∧
  cpp_destructor cls = cpp_destructor (collection_part cls) ∧
  cpp_addChild cls = cpp_addChild (collection_part cls) ∧
  cpp_getChild cls = cpp_getChild (collection_part cls) ∧
  cpp_removeChild cls = cpp_removeChild (collection_part cls).
Proof.
  intros Hok. pose proof (collection_part_ok _ Hok) as Hp.
  rewrite (java_setBaseValues_text _ Hok), (java_setBaseValues_text _ Hp),
    (java_getChildCollections_text _ Hok), (java_getChildCollections_text _ Hp),
    (cpp_destructor_text _ Hok), (cpp_destructor_text _ Hp),
    (cpp_addChild_text _ Hok), (cpp_addChild_text _ Hp),
    (cpp_getChild_text _ Hok), (cpp_getChild_text _ Hp),
    (cpp_removeChild_text _ Hok), (cpp_removeChild_text _ Hp).
  unfold setBaseValues_text, destructor_text, addChild_text, getChild_text,
    removeChild_text, collection_part. cbn [cls_fields cls_name].
  rewrite filter_twice.
  rewrite <- !(bind_filter (λ f, collection_field f)); [done|..];
    intros f _ Hn;
    unfold base_value, destructor_block, addChild_block, getChild_block, removeChild_block;
    by rewrite Hn.
Qed.

Lemma plain_fields_ignored_Table :
  class_ok Table_cls ∧
  java_setBaseValues Table_cls = java_setBaseValues (collection_part Table_cls) ∧
  java_getChildCollections Table_cls = java_getChildCollections (collection_part Table_cls) ∧
  cpp_destructor Table_cls = cpp_destructor (collection_part Table_cls) ∧
  cpp_addChild Table_cls = cpp_addChild (collection_part Table_cls) ∧
  cpp_getChild Table_cls = cpp_getChild (collection_part Table_cls) ∧
  cpp_removeChild Table_cls = cpp_removeChild (collection_part Table_cls).
Proof. split; [exact Table_ok | apply (plain_fields_ignored Table_cls), Table_ok]. Defined.

(** ** The run that succeeds *)

Lemma for_classes_ok (l : list Class) (body : Class → Gen unit)
    (step : World → Class → World) (w : World) :
  (∀ c w', c ∈ l → body c w' = (step w' c, Ok ())) →
  for_classes l body w = (foldl step w l, Ok ()).
Proof.
  revert w. induction l as [|c r IH]; intros w Hb; [done|].
  cbn [for_classes foldl].
  rewrite (gen_bind_ok _ _ _ _ _ (Hb c w (list_elem_of_here _ _))).
  apply IH. intros c' w' Hc'. apply Hb. by right.
Qed.

Lemma foldl_world (g : gmap string (list string) → Class → gmap string (list string))
    (l : list Class) (w : World) :
  foldl (λ w c, mkWorld (cmds w) (g (files w) c)) w l
  = mkWorld (cmds w) (foldl g (files w) l).
Proof.
  revert w. induction l as [|c r IH]; intros w; [by destruct w|].
  cbn [foldl]. by rewrite IH.
Qed.

Lemma os_system_bind {B} (cmd : string) (k : unit → Gen B) (w : World) :
  (os_system cmd ≫= k) w = k () (mkWorld (cmds w ++ [cmd]) (files w)).
Proof. reflexivity. Qed.

Section Success.

Variable gpl_header auto_gen_warning : string.
Variable dict_keys : list string → list string.

Lemma genjava_ok (classes : list Class) :
  Forall class_ok classes →
  genjava gpl_header auto_gen_warning classes java_prepath java_postpath javapkg empty_world
  = (mkWorld java_setup_cmds (written_java gpl_header auto_gen_warning classes ∅), Ok ()).
Proof.
  intros Hok. rewrite genjava_start.
  rewrite (for_classes_ok _ _
             (λ w c, mkWorld (cmds w)
                       (<[java_path c := class_text gpl_header auto_gen_warning javapkg c]>
                          (files w)))).
  - by rewrite (foldl_world
                  (λ m c, <[java_path c := class_text gpl_header auto_gen_warning javapkg c]> m)).
  - intros c w Hc. apply java_body_ok. rewrite Forall_forall in Hok. by apply Hok.
Qed.

Lemma cpp_body_ok (cls : Class) (w : World) :
  class_ok cls →
  cpp_body gpl_header auto_gen_warning dict_keys cls w
  = (mkWorld (cmds w)
       (<[cpp_path cls := source_text gpl_header auto_gen_warning dict_keys cls]>
          (<[h_path cls :=
               header_text gpl_header auto_gen_warning cls (forward_names cls)]> (files w))),
     Ok ()).
Proof.
  intros Hok. unfold cpp_body.
  rewrite (referencedClasses_names _ (class_ok_typed _ Hok)).
  unfold lift_gen, to_file, mbind, Gen_bind. cbn zeta. cbn [fst snd].
  rewrite (gencpp_header_text _ _ _ _ Hok). cbn [fst snd outcome chunks].
  by rewrite (gencpp_source_text _ _ _ _ Hok).
Qed.

Lemma gencpp_start (classes : list Class) (w : World) :
  gencpp gpl_header auto_gen_warning dict_keys classes cpp_prepath cpp_postpath w
  = for_classes (reverse classes) (cpp_body gpl_header auto_gen_warning dict_keys)
      (mkWorld (cmds w ++ cpp_setup_cmds) (files w)).
Proof.
  unfold gencpp. rewrite !os_system_bind. cbn [cmds files].
  by rewrite <- !app_assoc.
Qed.

Lemma gencpp_ok (classes : list Class) (w : World) :
  Forall class_ok classes →
  gencpp gpl_header auto_gen_warning dict_keys classes cpp_prepath cpp_postpath w
  = (mkWorld (cmds w ++ cpp_setup_cmds)
       (written_cpp gpl_header auto_gen_warning dict_keys (reverse classes) (files w)),
     Ok ()).
Proof.
  intros Hok. rewrite gencpp_start.
  rewrite (for_classes_ok _ _
    (λ w c, mkWorld (cmds w)
       (<[cpp_path c := source_text gpl_header auto_gen_warning dict_keys c]>
          (<[h_path c := header_text gpl_header auto_gen_warning c (forward_names c)]>
             (files w))))).
  - by rewrite (foldl_world
      (λ m c, <[cpp_path c := source_text gpl_header auto_gen_warning dict_keys c]>
                (<[h_path c := header_text gpl_header auto_gen_warning c (forward_names c)]> m))).
  - intros c w' Hc. apply cpp_body_ok. rewrite Forall_forall in Hok.
    apply Hok. by apply elem_of_reverse.
Qed.

Lemma main_ok (classes : list Class) :
  Forall class_ok classes →
  main gpl_header auto_gen_warning dict_keys classes empty_world
  = (mkWorld (java_setup_cmds ++ cpp_setup_cmds)
       (written_cpp gpl_header auto_gen_warning dict_keys (reverse classes)
          (written_java gpl_header auto_gen_warning classes ∅)),
     Ok ()).
Proof.
  intros Hok. unfold main.
  rewrite (gen_bind_ok _ _ _ _ _ (genjava_ok _ Hok)).
  by rewrite (gencpp_ok _ _ Hok).
Qed.

Lemma main_not_ok (classes : list Class) :
  ¬ Forall class_ok classes →
  raises (main gpl_header auto_gen_warning dict_keys classes empty_world).2.
Proof.
  intros Hbad.
  destruct (first_bad_class _ Hbad) as (pre & cls & post & -> & Hpre & Hcls).
  destruct (first_unclassified _ Hcls) as (fs1 & f & fs2 & Hfs & Hok1 & Hf).
  destruct (javatypify_not_ok f Hf) as [e He].
  by rewrite (run_stops_at gpl_header auto_gen_warning dict_keys
                pre post cls fs1 fs2 f e Hpre Hfs Hok1 He).
Qed.

End Success.

(** ** Paths *)

Lemma append_length (a b : string) :
  String.length (a +:+ b) = String.length a + String.length b.
Proof. induction a as [|c r IH]; [done|]. cbn. by rewrite <- IH. Qed.

Lemma append_inv_head (s a b : string) : s +:+ a = s +:+ b → a = b.
Proof. induction s as [|c r IH]; [done|]. intros [= H]. by apply IH. Qed.

Lemma append_inv_tail (s a b : string) : a +:+ s = b +:+ s → a = b.
Proof.
  revert b. induction a as [|c r IH]; intros [|d b'] H; [done| | |].
  - apply (f_equal String.length) in H. rewrite !append_length in H. cbn in H. lia.
  - apply (f_equal String.length) in H. rewrite !append_length in H. cbn in H. lia.
  - injection H as -> H. f_equal. by apply IH.
Qed.

Lemma last_char_append (a b : string) :
  b ≠ EmptyString → last_char (a +:+ b) = last_char b.
Proof.
  intros Hb. induction a as [|c r IH]; [done|].
  change (String c r +:+ b) with (String c (r +:+ b)). cbn [last_char].
  destruct (r +:+ b) eqn:E; [|done].
  destruct r as [|d r'].
  - change (b = EmptyString) in E. done.
  - change (String d (r' +:+ b) = EmptyString) in E. discriminate E.
Qed.


Lemma h_path_inj (c c' : Class) :
  h_path c = h_path c' → lower (cls_name c) = lower (cls_name c').
Proof.
  unfold h_path. intros H%append_inv_head%append_inv_head.
  by apply append_inv_tail in H.
Qed.

Lemma cpp_path_inj (c c' : Class) :
  cpp_path c = cpp_path c' → lower (cls_name c) = lower (cls_name c').
Proof.
  unfold cpp_path. intros H%append_inv_head%append_inv_head.
  by apply append_inv_tail in H.
Qed.



Lemma h_path_not_cpp (c c' : Class) : h_path c ≠ cpp_path c'.
Proof.
  unfold h_path, cpp_path. intros H%append_inv_head%append_inv_head.
  apply (f_equal last_char) in H. by rewrite !last_char_append in H.
Qed.

(** ** Files written by a loop *)

Lemma written_java_is_Some (gpl_header auto_gen_warning : string) (l : list Class)
    (fs : gmap string (list string)) (p : string) :
  is_Some (written_java gpl_header auto_gen_warning l fs !! p)
  ↔ is_Some (fs !! p) ∨ ∃ c, c ∈ l ∧ p = java_path c.
Proof.
  unfold written_java. revert fs. induction l as [|c r IH]; intros fs; cbn [foldl].
  - split; [by left|]. intros [?|(c & Hc & _)]; [done|]. by apply elem_of_nil in Hc.
  - rewrite IH, lookup_insert_is_Some'. split.
    + intros [[<-|?]|(c' & Hc' & ->)]; [right; exists c; split; [left|done]|by left|].
      right. exists c'. split; [by right|done].
    + intros [?|(c' & [->|Hc']%elem_of_cons & ->)]; [left; by right|left; by left|].
      right. by exists c'.
Qed.

Lemma written_cpp_is_Some (gpl_header auto_gen_warning : string)
    (dict_keys : list string → list string) (l : list Class)
    (fs : gmap string (list string)) (p : string) :
  is_Some (written_cpp gpl_header auto_gen_warning dict_keys l fs !! p)
  ↔ is_Some (fs !! p) ∨ ∃ c, c ∈ l ∧ (p = h_path c ∨ p = cpp_path c).
Proof.
  unfold written_cpp. revert fs. induction l as [|c r IH]; intros fs; cbn [foldl].
  - split; [by left|]. intros [?|(c & Hc & _)]; [done|]. by apply elem_of_nil in Hc.
  - rewrite IH, !lookup_insert_is_Some'. split.
    + intros [[<-|[<-|?]]|(c' & Hc' & Hp)].
      * right. exists c. split; [left|by right].
      * right. exists c. split; [left|by left].
      * by left.
      * right. exists c'. split; [by right|done].
    + intros [?|(c' & [->|Hc']%elem_of_cons & Hp)].
      * left. right. by right.
      * left. destruct Hp as [->| ->]; [right; by left|by left].
      * right. by exists c'.
Qed.


Lemma written_cpp_other (gpl_header auto_gen_warning : string)
    (dict_keys : list string → list string) (l : list Class)
    (fs : gmap string (list string)) (p : string) :
  (∀ c, c ∈ l → h_path c ≠ p ∧ cpp_path c ≠ p) →
  written_cpp gpl_header auto_gen_warning dict_keys l fs !! p = fs !! p.
Proof.
  unfold written_cpp. revert fs. induction l as [|c r IH]; intros fs Hp; [done|].
  cbn [foldl]. rewrite IH by (intros c' Hc'; apply Hp; by right).
  destruct (Hp c (list_elem_of_here _ _)) as [H1 H2].
  by rewrite !lookup_insert_ne.
Qed.


Lemma written_cpp_app (gpl_header auto_gen_warning : string)
    (dict_keys : list string → list string) (l1 l2 : list Class)
    (fs : gmap string (list string)) :
  written_cpp gpl_header auto_gen_warning dict_keys (l1 ++ l2) fs
  = written_cpp gpl_header auto_gen_warning dict_keys l2
      (written_cpp gpl_header auto_gen_warning dict_keys l1 fs).
Proof. unfold written_cpp. apply foldl_app. Qed.

(** ** The outcome of a run *)

Section Outcome.

Variable gpl_header auto_gen_warning : string.
Variable dict_keys : list string → list string.

(** The run ends without an exception exactly when every field of every
    class classifies. *)
Theorem run_succeeds_iff (classes : list Class) :
  (main gpl_header auto_gen_warning dict_keys classes empty_world).2 = Ok ()
  ↔ Forall class_ok classes.
Proof.
  split.
  - intros Hrun. destruct (decide (Forall class_ok classes)) as [|Hbad]; [done|].
    pose proof (main_not_ok gpl_header auto_gen_warning dict_keys classes Hbad) as Hr.
    rewrite Hrun in Hr. destruct Hr.
  - intros Hok. by rewrite (main_ok _ _ _ _ Hok).
Qed.

(** A run on classes that all classify issues the setup commands of the
    managed backend and then those of the manual backend, and writes three
    files for each class and no other file: the Java file named after the
    class, and the header and the definition file named after the class in
    lower case. *)
Theorem run_writes_three_files (classes : list Class) :
  Forall class_ok classes →
  cmds (main gpl_header auto_gen_warning dict_keys classes empty_world).1
    = java_setup_cmds ++ cpp_setup_cmds ∧
  ∀ p : string,
    is_Some (files (main gpl_header auto_gen_warning dict_keys classes empty_world).1 !! p)
    ↔ ∃ c, c ∈ classes ∧ (p = java_path c ∨ p = h_path c ∨ p = cpp_path c).
Proof.
  intros Hok. rewrite (main_ok _ _ _ _ Hok). cbn [fst cmds files]. split; [done|].
  intros p. rewrite written_cpp_is_Some, written_java_is_Some, lookup_empty. split.
  - intros [[[? Hn]|(c & Hc & ->)]|(c & Hc & Hp)]; [done| |].
    + exists c. split; [done|by left].
    + apply (proj1 (elem_of_reverse _ _)) in Hc. exists c. split; [done|by right].
  - intros (c & Hc & [->|Hp]).
    + left. right. by exists c.
    + right. exists c. split; [by apply elem_of_reverse|done].
Qed.


(** The manual backend writes the classes in the reverse order of the
    list: the header and the definition file of a class hold what the
    emitters write for that class when no earlier class of the list has the
    same name in lower case. *)
Theorem cpp_files_first_wins (pre post : list Class) (c : Class) :
  Forall class_ok (pre ++ c :: post) →
  (∀ c', c' ∈ pre → lower (cls_name c') ≠ lower (cls_name c)) →
  ∃ referenced : list string,
    referencedClasses c = Ok referenced ∧
    files (main gpl_header auto_gen_warning dict_keys (pre ++ c :: post) empty_world).1
      !! (cpp_postpath +:+ "/" +:+ lower (cls_name c) +:+ ".h")
    = Some (chunks (gencpp_header gpl_header auto_gen_warning c referenced)) ∧
    files (main gpl_header auto_gen_warning dict_keys (pre ++ c :: post) empty_world).1
      !! (cpp_postpath +:+ "/" +:+ lower (cls_name c) +:+ ".cpp")
    = Some (chunks (gencpp_source gpl_header auto_gen_warning dict_keys c)).
Proof.
  intros Hok Hpre. rewrite (main_ok _ _ _ _ Hok). cbn [fst files].
  assert (class_ok c) as Hc.
  { rewrite Forall_forall in Hok. apply Hok, elem_of_app. right. left. }
  exists (forward_names c). split; [apply referencedClasses_names, class_ok_typed, Hc|].
  rewrite (gencpp_header_text _ _ _ _ Hc), (gencpp_source_text _ _ _ _ Hc).
  fold (h_path c). fold (cpp_path c). unfold chunks. cbn [fst].
  rewrite reverse_app, reverse_cons, <- app_assoc, !written_cpp_app.
  split.
  - rewrite written_cpp_other.
    + unfold written_cpp. cbn [foldl].
      rewrite lookup_insert_ne by (apply not_eq_sym, h_path_not_cpp).
      apply lookup_insert_eq.
    + intros c' Hc'. apply (proj1 (elem_of_reverse _ _)) in Hc'. split.
      * intros Hp. by apply (Hpre c' Hc'), h_path_inj.
      * apply not_eq_sym, h_path_not_cpp.
  - rewrite written_cpp_other.
    + unfold written_cpp. cbn [foldl]. apply lookup_insert_eq.
    + intros c' Hc'. apply (proj1 (elem_of_reverse _ _)) in Hc'. split.
      * apply h_path_not_cpp.
      * intros Hp. by apply (Hpre c' Hc'), cpp_path_inj.
Qed.

End Outcome.

Lemma scenario_ok : Forall class_ok [Table_cls; Column_cls].
Proof. repeat constructor; by eexists. Qed.

Lemma run_writes_three_files_scenario :
  Forall class_ok [Table_cls; Column_cls] ∧
  cmds (main "GPL" "GENERATED" (λ l, l) [Table_cls; Column_cls] empty_world).1
    = java_setup_cmds ++ cpp_setup_cmds ∧
  ∀ p : string,
    is_Some (files (main "GPL" "GENERATED" (λ l, l) [Table_cls; Column_cls] empty_world).1 !! p)
    ↔ ∃ c, c ∈ [Table_cls; Column_cls] ∧ (p = java_path c ∨ p = h_path c ∨ p = cpp_path c).
Proof.
  split; [exact scenario_ok|].
  apply (run_writes_three_files "GPL" "GENERATED" (λ l, l) [Table_cls; Column_cls]).
  exact scenario_ok.
Defined.


Lemma cpp_files_first_wins_scenario :
  Forall class_ok ([Table_cls] ++ Column_cls :: []) ∧
  (∀ c', c' ∈ [Table_cls] → lower (cls_name c') ≠ lower (cls_name Column_cls)) ∧
  ∃ referenced : list string,
    referencedClasses Column_cls = Ok referenced ∧
    files (main "GPL" "GENERATED" (λ l, l) ([Table_cls] ++ Column_cls :: []) empty_world).1
      !! (cpp_postpath +:+ "/" +:+ lower (cls_name Column_cls) +:+ ".h")
    = Some (chunks (gencpp_header "GPL" "GENERATED" Column_cls referenced)) ∧
    files (main "GPL" "GENERATED" (λ l, l) ([Table_cls] ++ Column_cls :: []) empty_world).1
      !! (cpp_postpath +:+ "/" +:+ lower (cls_name Column_cls) +:+ ".cpp")
    = Some (chunks (gencpp_source "GPL" "GENERATED" (λ l, l) Column_cls)).
Proof.
  assert (∀ c', c' ∈ [Table_cls] → lower (cls_name c') ≠ lower (cls_name Column_cls)) as Hn.
  { intros c' Hc'. apply list_elem_of_singleton in Hc'. by subst c'. }
  split; [exact scenario_ok|]. split; [exact Hn|].
  apply (cpp_files_first_wins "GPL" "GENERATED" (λ l, l) [Table_cls] [] Column_cls);
    [exact scenario_ok|exact Hn].
Defined.

(** ** The header and the includes *)



Lemma target_of_marker_field (f : Field) (n : string) :
  target_of f = Some n → marker_field f ∧ n = drop_last (field_type f).
Proof.
  unfold target_of, marker_field. destruct (kind_of f) as [[s|t|t]|] eqn:Hk; try done.
  - intros [= <-]. split; [done|]. by destruct (classify_shape _ _ Hk) as [-> _].
  - intros [= <-]. split; [done|]. by destruct (classify_shape _ _ Hk) as [-> _].
Qed.

(** When the dictionary of the includes lists the keys put into it, the
    definition file of a class whose fields all classify includes, for every
    Reference or Collection field, the header named after the token without
    its marker, in lower case; in particular it includes the header of every
    class that the header file declares forward. *)
Theorem includes_cover_targets (dict_keys : list string → list string) (cls : Class) :
  class_ok cls → lists_its_keys dict_keys →
  (∀ f, f ∈ cls_fields cls → marker_field f →
        ln ("#include " +:+ q (lower (drop_last (field_type f)) +:+ ".h"))
          ∈ chunks (cpp_includes dict_keys cls)) ∧
  (∀ l n, referencedClasses cls = Ok l → n ∈ l →
        ln ("#include " +:+ q (lower n +:+ ".h")) ∈ chunks (cpp_includes dict_keys cls)).
Proof.
  intros Hok Hkeys.
  assert (∀ f, f ∈ cls_fields cls → marker_field f →
               ln (include_of f) ∈ chunks (cpp_includes dict_keys cls)) as Hfields.
  { intros f Hf Hm. rewrite (cpp_includes_text _ _ Hok). unfold chunks, includes_text.
    cbn [fst]. apply elem_of_app. right. apply elem_of_app. left.
    apply list_elem_of_fmap. exists (include_of f). split; [done|].
    apply Hkeys. apply list_elem_of_fmap. exists f. split; [done|].
    apply list_elem_of_filter. by split. }
  split; [done|].
  intros l n Hl Hn.
  rewrite (referencedClasses_names _ (class_ok_typed _ Hok)) in Hl. injection Hl as <-.
  unfold forward_names in Hn. cbn zeta in Hn.
  assert (n ∈ foldl add_distinct [] (omap target_of (cls_fields cls))) as Hall.
  { case_bool_decide; [|done].
    apply remove_first_elem in Hn; [tauto|].
    apply foldl_add_distinct_NoDup, NoDup_nil_2. }
  apply foldl_add_distinct_elem in Hall as [Hall|Hall]; [by apply elem_of_nil in Hall|].
  apply elem_of_omap_target in Hall as (f & Hf & Ht).
  destruct (target_of_marker_field _ _ Ht) as [Hm ->].
  by apply (Hfields f Hf Hm).
Qed.

Lemma identity_lists_its_keys : lists_its_keys (λ l, l).
Proof. by intros l x. Qed.

Lemma includes_cover_targets_Node :
  class_ok Node_cls ∧ lists_its_keys (λ l, l) ∧
  (∀ f, f ∈ cls_fields Node_cls → marker_field f →
        ln ("#include " +:+ q (lower (drop_last (field_type f)) +:+ ".h"))
          ∈ chunks (cpp_includes (λ l, l) Node_cls)) ∧
  (∀ l n, referencedClasses Node_cls = Ok l → n ∈ l →
        ln ("#include " +:+ q (lower n +:+ ".h")) ∈ chunks (cpp_includes (λ l, l) Node_cls)).
Proof.
  assert (class_ok Node_cls) as Hok by (repeat constructor; by eexists).
  split; [exact Hok|]. split; [exact identity_lists_its_keys|].
  apply (includes_cover_targets (λ l, l) Node_cls); [exact Hok|exact identity_lists_its_keys].
Defined.

(** ** A class without child collections *)

Lemma bind_all_nil {A B} (g : A → list B) (l : list A) :
  (∀ x, x ∈ l → g x = []) → l ≫= g = [].
Proof.
  induction l as [|x r IH]; intros Hg; [done|]. cbn [mbind list_bind].
  rewrite (Hg x (list_elem_of_here _ _)). cbn [app]. apply IH.
  intros y Hy. apply Hg. by right.
Qed.

Lemma register_no_collections (l : list Field) :
  (∀ f, f ∈ l → collection_field f = false) →
  l ≫= register_statement
  = (λ f, ln ("    m_fields[" +:+ q (field_name f) +:+ "] = value;")) <$> l.
Proof.
  induction l as [|f r IH]; intros Hnone; [done|].
  cbn [mbind list_bind fmap list_fmap]. fold (r ≫= register_statement).
  rewrite IH by (intros g Hg; apply Hnone; by right).
  unfold register_statement. by rewrite (Hnone f (list_elem_of_here _ _)).
Qed.

Lemma filter_none {A} (p : A → bool) (l : list A) :
  (∀ x, x ∈ l → p x = false) → filter (λ x, p x) l = [].
Proof.
  induction l as [|x r IH]; intros Hp; [done|].
  rewrite filter_cons_False
    by (rewrite (Hp x (list_elem_of_here _ _)); by intros []).
  apply IH. intros y Hy. apply Hp. by right.
Qed.

(** For a class whose fields all classify and none of which is a
    Collection, the emitted constructor initializes no container and
    enters every field into m_fields and nothing into m_childCollections,
    the destructor is empty, addChild and getChild return NULL whatever the
    names, and removeChild is the assertion on m_childCollections followed
    by return false. *)
Theorem no_collections_no_children (cls : Class) :
  class_ok cls → (∀ f, f ∈ cls_fields cls → collection_field f = false) →
  cpp_constructor cls
    = ([ln (cls_name cls +:+ "::" +:+ cls_name cls
            +:+ "(Catalog *catalog, CatalogType *parent, const string &path, const string &name)");
        ln ": CatalogType(catalog, parent, path, name)";
        ln "{"; ln "    CatalogValue value;"]
         ++ ((λ f, ln ("    m_fields[" +:+ q (field_name f) +:+ "] = value;"))
               <$> cls_fields cls)
         ++ [ln ("}" +:+ nl)], Ok ()) ∧
  cpp_destructor cls
    = ([ln (cls_name cls +:+ "::~" +:+ cls_name cls +:+ "() {"); ln ("}" +:+ nl)], Ok ()) ∧
  cpp_addChild cls
    = ([ln ("CatalogType * " +:+ cls_name cls
            +:+ "::addChild(const std::string &collectionName, const std::string &childName) {");
        ln ("    return NULL;" +:+ nl +:+ "}" +:+ nl)], Ok ()) ∧
  cpp_getChild cls
    = ([ln ("CatalogType * " +:+ cls_name cls
            +:+ "::getChild(const std::string &collectionName, const std::string &childName) const {");
        ln ("    return NULL;" +:+ nl +:+ "}" +:+ nl)], Ok ()) ∧
  cpp_removeChild cls
    = ([ln ("bool " +:+ cls_name cls
            +:+ "::removeChild(const std::string &collectionName, const std::string &childName) {");
        ln "    assert (m_childCollections.find(collectionName) != m_childCollections.end());";
        ln "    return false;"; ln ("}" +:+ nl)], Ok ()).
Proof.
  intros Hok Hnone.
  rewrite (cpp_constructor_text _ Hok), (cpp_destructor_text _ Hok),
    (cpp_addChild_text _ Hok), (cpp_getChild_text _ Hok), (cpp_removeChild_text _ Hok).
  unfold constructor_text, destructor_text, addChild_text, getChild_text, removeChild_text.
  assert (∀ g : Field → list string,
            (∀ f, collection_field f = false → g f = []) → cls_fields cls ≫= g = [])
    as Hnil.
  { intros g Hg. apply bind_all_nil. intros f Hf. by apply Hg, Hnone. }
  rewrite (Hnil destructor_block), (Hnil addChild_block), (Hnil getChild_block),
    (Hnil removeChild_block)
    by (intros f Hf;
        unfold destructor_block, addChild_block, getChild_block, removeChild_block;
        by rewrite Hf).
  rewrite (filter_none _ _ Hnone), (register_no_collections _ Hnone).
  done.
Qed.

Lemma no_collections_no_children_Column :
  class_ok Column_cls ∧ (∀ f, f ∈ cls_fields Column_cls → collection_field f = false) ∧
  cpp_constructor Column_cls
    = ([ln (cls_name Column_cls +:+ "::" +:+ cls_name Column_cls
            +:+ "(Catalog *catalog, CatalogType *parent, const string &path, const string &name)");
        ln ": CatalogType(catalog, parent, path, name)";
        ln "{"; ln "    CatalogValue value;"]
         ++ ((λ f, ln ("    m_fields[" +:+ q (field_name f) +:+ "] = value;"))
               <$> cls_fields Column_cls)
         ++ [ln ("}" +:+ nl)], Ok ()) ∧
  cpp_destructor Column_cls
    = ([ln (cls_name Column_cls +:+ "::~" +:+ cls_name Column_cls +:+ "() {");
        ln ("}" +:+ nl)], Ok ()) ∧
  cpp_addChild Column_cls
    = ([ln ("CatalogType * " +:+ cls_name Column_cls
            +:+ "::addChild(const std::string &collectionName, const std::string &childName) {");
        ln ("    return NULL;" +:+ nl +:+ "}" +:+ nl)], Ok ()) ∧
  cpp_getChild Column_cls
    = ([ln ("CatalogType * " +:+ cls_name Column_cls
            +:+ "::getChild(const std::string &collectionName, const std::string &childName) const {");
        ln ("    return NULL;" +:+ nl +:+ "}" +:+ nl)], Ok ()) ∧
  cpp_removeChild Column_cls
    = ([ln ("bool " +:+ cls_name Column_cls
            +:+ "::removeChild(const std::string &collectionName, const std::string &childName) {");
        ln "    assert (m_childCollections.find(collectionName) != m_childCollections.end());";
        ln "    return false;"; ln ("}" +:+ nl)], Ok ()).
Proof.
  assert (∀ f, f ∈ cls_fields Column_cls → collection_field f = false) as Hn.
  { intros f Hf. cbn in Hf. repeat (apply elem_of_cons in Hf as [->|Hf]; [done|]).
    by apply elem_of_nil in Hf. }
  split; [exact Column_ok|]. split; [exact Hn|].
  apply (no_collections_no_children Column_cls); [exact Column_ok|exact Hn].
Defined.

(** ** The manual backend on a class that does not classify *)

Lemma for_classes_stop (pre post : list Class) (x : Class) (body : Class → Gen unit)
    (step : World → Class → World) (stop : World → World) (w : World) (e : exn) :
  (∀ c w', c ∈ pre → body c w' = (step w' c, Ok ())) →
  (∀ w', body x w' = (stop w', Raise e)) →
  for_classes (pre ++ x :: post) body w = (stop (foldl step w pre), Raise e).
Proof.
  revert w. induction pre as [|c r IH]; intros w Hb Hx.
  - cbn [app for_classes foldl]. by rewrite (gen_bind_raise _ _ _ _ _ (Hx w)).
  - cbn [app for_classes foldl].
    rewrite (gen_bind_ok _ _ _ _ _ (Hb c w (list_elem_of_here _ _))).
    apply IH; [|done]. intros c' w' Hc'. apply Hb. by right.
Qed.

Lemma collect_referenced_untyped (l : list Field) (acc : list string) :
  ¬ Forall typed l → collect_referenced l acc = Raise IndexError.
Proof.
  revert acc. induction l as [|f r IH]; intros acc Hn.
  - destruct Hn. constructor.
  - cbn [collect_referenced]. destruct (last_char (field_type f)) as [c|] eqn:Hc; [|done].
    assert (¬ Forall typed r) as Hr.
    { intros Hr. apply Hn. constructor; [|done]. intros He. by rewrite He in Hc. }
    destruct (bool_decide (c = "*"%char) || bool_decide (c = "?"%char));
      [case_bool_decide|]; by apply IH.
Qed.

Lemma referencedClasses_untyped (cls : Class) :
  ¬ Forall typed (cls_fields cls) → referencedClasses cls = Raise IndexError.
Proof. intros Hn. unfold referencedClasses. by rewrite collect_referenced_untyped. Qed.

Lemma cpp_members_raise (cls : Class) (fs1 fs2 : list Field) (f : Field) (e : exn) :
  cls_fields cls = fs1 ++ f :: fs2 → Forall field_ok fs1 →
  cpptypify (field_type f) = Raise e →
  cpp_members cls = (fs1 ≫= member_decl, Raise e).
Proof.
  intros Hfs Hok He. unfold cpp_members. rewrite Hfs.
  rewrite (for_each_raise _ _ _ _ member_decl [] e).
  - by rewrite app_nil_r.
  - intros g Hg. rewrite Forall_forall in Hok. destruct (Hok g Hg) as [k Hk].
    by rewrite (cpptypify_field_type _ _ Hk).
  - by rewrite He.
Qed.

Lemma gencpp_header_raise (gpl_header auto_gen_warning : string) (cls : Class)
    (referenced : list string) (fs1 fs2 : list Field) (f : Field) (e : exn) :
  cls_fields cls = fs1 ++ f :: fs2 → Forall field_ok fs1 →
  cpptypify (field_type f) = Raise e →
  gencpp_header gpl_header auto_gen_warning cls referenced
  = (header_prefix gpl_header auto_gen_warning cls referenced ++ (fs1 ≫= member_decl),
     Raise e).
Proof.
  intros Hfs Hok He. unfold gencpp_header.
  rewrite cpp_forward_decls_text, (cpp_members_raise _ _ _ _ _ Hfs Hok He).
  unfold header_prefix, header_lead. destruct (cls_comment cls); cbn.
  - by rewrite <- !app_assoc.
  - by rewrite <- !app_assoc.
Qed.

Lemma cpptypify_typed_not_ok (f : Field) :
  typed f → ¬ field_ok f →
  cpptypify (field_type f) = Raise (Exception ("bad type: " +:+ field_type f)).
Proof.
  intros Ht Hn. rewrite cpptypify_unclassified.
  - by rewrite decide_False.
  - unfold field_ok in Hn. destruct (spec_classify (field_type f)); [|done].
    destruct Hn. by eexists.
Qed.

Section ManualBackendAlone.

Variable gpl_header auto_gen_warning : string.
Variable dict_keys : list string → list string.

(** Called on its own, the manual backend stops at a class with an empty
    type token before it opens any file of that class: collecting the
    referenced classes raises IndexError. It leaves what it leaves when
    called on the classes after that class in the list, which it processes
    first. *)
Theorem gencpp_empty_token (before after : list Class) (cls : Class) (w : World) :
  Forall class_ok after → ¬ Forall typed (cls_fields cls) →
  gencpp gpl_header auto_gen_warning dict_keys (before ++ cls :: after)
    cpp_prepath cpp_postpath w
  = ((gencpp gpl_header auto_gen_warning dict_keys after cpp_prepath cpp_postpath w).1,
     Raise IndexError).
Proof.
  intros Hok Hn. rewrite (gencpp_ok _ _ _ _ _ Hok). cbn [fst].
  rewrite gencpp_start, reverse_app, reverse_cons, <- app_assoc.
  cbn [app].
  rewrite (for_classes_stop _ _ _ _
    (λ w c, mkWorld (cmds w)
       (<[cpp_path c := source_text gpl_header auto_gen_warning dict_keys c]>
          (<[h_path c := header_text gpl_header auto_gen_warning c (forward_names c)]>
             (files w))))
    (λ w, w) _ IndexError).
  - by rewrite (foldl_world
      (λ m c, <[cpp_path c := source_text gpl_header auto_gen_warning dict_keys c]>
                (<[h_path c := header_text gpl_header auto_gen_warning c (forward_names c)]> m))).
  - intros c w' Hc. apply cpp_body_ok. rewrite Forall_forall in Hok.
    apply Hok. by apply elem_of_reverse.
  - intros w'. unfold cpp_body. by rewrite (referencedClasses_untyped _ Hn).
Qed.

(** Called on its own, the manual backend stops at a class whose tokens
    are all non-empty but one of which does not classify while it writes
    the header of that class: the exception is "bad type" followed by the
    token, the header holds its opening, the forward declarations and the
    members declared for the fields before the offending one, and the
    definition file of the class is not written. Apart from that header the
    run leaves what it leaves when called on the classes after that class in
    the list. *)
Theorem gencpp_unknown_token (before after : list Class) (cls : Class)
    (fs1 fs2 : list Field) (f : Field) (w : World) :
  Forall class_ok after → Forall typed (cls_fields cls) →
  cls_fields cls = fs1 ++ f :: fs2 → Forall field_ok fs1 → ¬ field_ok f →
  ∃ referenced : list string,
    referencedClasses cls = Ok referenced ∧
    gencpp_header gpl_header auto_gen_warning cls referenced
    = (header_prefix gpl_header auto_gen_warning cls referenced ++ (fs1 ≫= member_decl),
       Raise (Exception ("bad type: " +:+ field_type f))) ∧
    gencpp gpl_header auto_gen_warning dict_keys (before ++ cls :: after)
      cpp_prepath cpp_postpath w
    = (mkWorld
         (cmds (gencpp gpl_header auto_gen_warning dict_keys after cpp_prepath cpp_postpath w).1)
         (<[cpp_postpath +:+ "/" +:+ lower (cls_name cls) +:+ ".h" :=
              chunks (gencpp_header gpl_header auto_gen_warning cls referenced)]>
            (files
               (gencpp gpl_header auto_gen_warning dict_keys after cpp_prepath cpp_postpath w).1)),
       Raise (Exception ("bad type: " +:+ field_type f))).
Proof.
  intros Hok Ht Hfs Hok1 Hf.
  assert (typed f) as Htf.
  { rewrite Forall_forall in Ht. apply Ht. rewrite Hfs. apply elem_of_app. right. left. }
  pose proof (cpptypify_typed_not_ok f Htf Hf) as He.
  pose proof (gencpp_header_raise gpl_header auto_gen_warning cls (forward_names cls)
                _ _ _ _ Hfs Hok1 He) as Hh.
  exists (forward_names cls). split; [by apply referencedClasses_names|]. split; [done|].
  rewrite (gencpp_ok _ _ _ _ _ Hok). cbn [fst cmds files]. rewrite Hh. cbn [chunks fst].
  rewrite gencpp_start, reverse_app, reverse_cons, <- app_assoc. cbn [app].
  rewrite (for_classes_stop _ _ _ _
    (λ w c, mkWorld (cmds w)
       (<[cpp_path c := source_text gpl_header auto_gen_warning dict_keys c]>
          (<[h_path c := header_text gpl_header auto_gen_warning c (forward_names c)]>
             (files w))))
    (λ w, mkWorld (cmds w)
       (<[h_path cls :=
            header_prefix gpl_header auto_gen_warning cls (forward_names cls)
              ++ (fs1 ≫= member_decl)]> (files w)))
    _ (Exception ("bad type: " +:+ field_type f))).
  - by rewrite (foldl_world
      (λ m c, <[cpp_path c := source_text gpl_header auto_gen_warning dict_keys c]>
                (<[h_path c := header_text gpl_header auto_gen_warning c (forward_names c)]> m))).
  - intros c w' Hc. apply cpp_body_ok. rewrite Forall_forall in Hok.
    apply Hok. by apply elem_of_reverse.
  - intros w'. unfold cpp_body. rewrite (referencedClasses_names _ Ht).
    unfold lift_gen, to_file, mbind, Gen_bind. cbn zeta. cbn [fst snd].
    by rewrite Hh.
Qed.

End ManualBackendAlone.

Lemma Untyped_not_typed : ¬ Forall typed (cls_fields Untyped_cls).
Proof.
  intros H. cbn in H. apply Forall_cons in H as [_ H]. apply Forall_cons in H as [H _].
  by apply H.
Qed.

Lemma gencpp_empty_token_Untyped :
  Forall class_ok [Column_cls] ∧ ¬ Forall typed (cls_fields Untyped_cls) ∧
  gencpp "GPL" "GENERATED" (λ l, l) ([Table_cls] ++ Untyped_cls :: [Column_cls])
    cpp_prepath cpp_postpath empty_world
  = ((gencpp "GPL" "GENERATED" (λ l, l) [Column_cls] cpp_prepath cpp_postpath empty_world).1,
     Raise IndexError).
Proof.
  assert (Forall class_ok [Column_cls]) as Hok by (repeat constructor; by eexists).
  split; [exact Hok|]. split; [exact Untyped_not_typed|].
  apply (gencpp_empty_token "GPL" "GENERATED" (λ l, l) [Table_cls] [Column_cls] Untyped_cls);
    [exact Hok|exact Untyped_not_typed].
Defined.

Lemma ratio_not_ok : ¬ field_ok (mkField "ratio" "float" None).
Proof. intros [k Hk]. discriminate Hk. Qed.

Lemma gencpp_unknown_token_Broken :
  Forall class_ok [Column_cls] ∧ Forall typed (cls_fields Broken_cls) ∧
  cls_fields Broken_cls = [mkField "id" "int" None] ++ mkField "ratio" "float" None :: [] ∧
  Forall field_ok [mkField "id" "int" None] ∧ ¬ field_ok (mkField "ratio" "float" None) ∧
  ∃ referenced : list string,
    referencedClasses Broken_cls = Ok referenced ∧
    gencpp_header "GPL" "GENERATED" Broken_cls referenced
    = (header_prefix "GPL" "GENERATED" Broken_cls referenced
         ++ ([mkField "id" "int" None] ≫= member_decl),
       Raise (Exception ("bad type: " +:+ field_type (mkField "ratio" "float" None)))) ∧
    gencpp "GPL" "GENERATED" (λ l, l) ([Table_cls] ++ Broken_cls :: [Column_cls])
      cpp_prepath cpp_postpath empty_world
    = (mkWorld
         (cmds (gencpp "GPL" "GENERATED" (λ l, l) [Column_cls]
                  cpp_prepath cpp_postpath empty_world).1)
         (<[cpp_postpath +:+ "/" +:+ lower (cls_name Broken_cls) +:+ ".h" :=
              chunks (gencpp_header "GPL" "GENERATED" Broken_cls referenced)]>
            (files (gencpp "GPL" "GENERATED" (λ l, l) [Column_cls]
                      cpp_prepath cpp_postpath empty_world).1)),
       Raise (Exception ("bad type: " +:+ field_type (mkField "ratio" "float" None)))).
Proof.
  assert (Forall class_ok [Column_cls]) as Hok by (repeat constructor; by eexists).
  assert (Forall typed (cls_fields Broken_cls)) as Ht by (repeat constructor; done).
  assert (Forall field_ok [mkField "id" "int" None]) as H1 by (repeat constructor; by eexists).
  split; [exact Hok|]. split; [exact Ht|]. split; [reflexivity|]. split; [exact H1|].
  split; [exact ratio_not_ok|].
  apply (gencpp_unknown_token "GPL" "GENERATED" (λ l, l) [Table_cls] [Column_cls] Broken_cls
           [mkField "id" "int" None] [] (mkField "ratio" "float" None));
    [exact Hok|exact Ht|reflexivity|exact H1|exact ratio_not_ok].
Defined.

Lemma Table_references_apart : Forall reference_named_apart (cls_fields Table_cls).
Proof.
  repeat constructor; intros t Hk; vm_compute in Hk; try discriminate Hk.
  injection Hk as <-.
  by apply (bool_decide_eq_false_1
              (rstrip "?" "Column" ∈ (["int"; "boolean"; "String"] : list string))).
Qed.

Lemma copyFields_by_kind_Table :
  class_ok Table_cls ∧ Forall reference_named_apart (cls_fields Table_cls) ∧
  java_copyFields Table_cls = (copyFields_text Table_cls copy_by_kind, Ok ()).
Proof.
  split; [exact Table_ok|]. split; [exact Table_references_apart|].
  apply (copyFields_by_kind Table_cls); [exact Table_ok|exact Table_references_apart].
Defined.
